(** * Jean-Michel Volet Roulant: the central unit and its serial link

    A shallow embedding of [ArduinoSerial.py], [CentralUnitCommunicator.py],
    [CentralUnitCommunicatorFile.py] and [CentralUnit.py], and the properties
    of the device protocol and of the automatic shutter decision.

    Conventions of the embedding.
    - A Python object is a record with one slot per attribute; a slot that an
      assignment has not yet filled holds [None], and reading it raises
      [AttributeError].  Inside [class CentralUnit] Python rewrites
      [self.__x] to [self._CentralUnit__x]; the slots carry the rewritten
      names, so [_CentralUnit__last_closed] and [_last_closed] are two slots.
    - A method is a function from the state to an outcome and the state
      after it; an exception keeps the state reached when it was raised.
    - A [float] is the rational it denotes, or an infinity, or NaN; time
      stamps are finite and their arithmetic is exact.
    - The built-ins [int] and [float] on text are parameters of the
      development; the transport (pyserial) is a script of what each
      [read_until] call returns. *)

From Stdlib Require Import ZArith QArith String Ascii List DecimalString Lia Lqa.
From stdpp Require Import base option list strings gmap.

Local Open Scope string_scope.
Local Open Scope Z_scope.

(** ** Python preliminaries *)

Inductive exn : Type :=
  | NotImplementedError (msg : string)
  | ConnectionError (msg : string)
  | ValueError (msg : string)
  | TimeoutError (msg : string)
  | TypeError (msg : string)
  | KeyError (key : string)
  | IndexError (msg : string)
  | AttributeError (name : string)
  | UnicodeError (culprit : string)
  | ArgumentError (msg : string)
  | ModuleNotFoundError (name : string)
  | SystemExit (code : Z).

(** A computation over a state [S]: the outcome is an exception or a value,
    and the state is threaded through both. *)
Definition exec (S A : Type) : Type := S -> (exn + A) * S.

Definition ret {S A} (a : A) : exec S A := fun s => (inr a, s).
Definition raise {S A} (e : exn) : exec S A := fun s => (inl e, s).
Definition bind {S A B} (m : exec S A) (k : A -> exec S B) : exec S B :=
  fun s => match m s with
           | (inr a, s') => k a s'
           | (inl e, s') => (inl e, s')
           end.
Definition get {S} : exec S S := fun s => (inr s, s).
Definition put {S} (s : S) : exec S unit := fun _ => (inr tt, s).
Definition modify {S} (f : S -> S) : exec S unit := fun s => (inr tt, f s).
Definition lift_sum {S A} (r : exn + A) : exec S A := fun s => (r, s).

(** [try m except handler]: the handler sees the exception and the state at
    the raise; it answers [None] for an exception it does not catch. *)
Definition try_except {S A} (m : exec S A) (handler : exn -> option (exec S A))
  : exec S A :=
  fun s => match m s with
           | (inr a, s') => (inr a, s')
           | (inl e, s') => match handler e with
                            | Some h => h s'
                            | None => (inl e, s')
                            end
           end.

#[global] Instance exec_ret {S} : MRet (exec S) := fun A a => ret a.
#[global] Instance exec_bind {S} : MBind (exec S) := fun A B k m => bind m k.

(** Values a dictionary of settings or an argparse namespace can hold. *)
Inductive value : Type :=
  | VNone
  | VInt (z : Z)
  | VBool (b : bool)
  | VStr (s : string).

(** [bool] is a subclass of [int]: it compares and computes as 0 or 1. *)
Definition as_int (v : value) : exn + Z :=
  match v with
  | VInt z => inr z
  | VBool b => inr (Z.b2z b)
  | VNone =>
      inl (TypeError "not supported between instances of 'NoneType' and 'int'")
  | VStr _ =>
      inl (TypeError "not supported between instances of 'str' and 'int'")
  end.

Definition truthy (v : value) : bool :=
  match v with
  | VNone => false
  | VInt z => negb (z =? 0)
  | VBool b => b
  | VStr s => negb (String.eqb s "")
  end.

(** Floats: comparisons with NaN are false, as IEEE 754 and Python have it. *)
Inductive pyfloat : Type :=
  | FNum (q : Q)
  | FInf (negative : bool)
  | FNaN.

Definition Qlt_bool (x y : Q) : bool := negb (Qle_bool y x).

Definition float_le (x y : pyfloat) : bool :=
  match x, y with
  | FNaN, _ | _, FNaN => false
  | FNum a, FNum b => Qle_bool a b
  | FInf true, _ => true
  | _, FInf false => true
  | FInf false, _ => false
  | _, FInf true => false
  end.

Definition float_lt (x y : pyfloat) : bool :=
  match x, y with
  | FNaN, _ | _, FNaN => false
  | FNum a, FNum b => Qlt_bool a b
  | FInf true, FInf true => false
  | FInf true, _ => true
  | FInf false, _ => false
  | FNum _, FInf false => true
  | FNum _, FInf true => false
  end.

Definition of_int (z : Z) : pyfloat := FNum (inject_Z z).

(** [str(n)] for an int. *)
Definition str_int (z : Z) : string := NilZero.string_of_int (Z.to_int z).

(** Text. *)
Definition CR : ascii := "013"%char.
Definition LF : ascii := "010"%char.
Definition CRLF : string := String CR (String LF EmptyString).

(** [s.split(sep)] for a one-character separator: never an empty list. *)
Fixpoint split (sep : ascii) (s : string) : list string :=
  match s with
  | EmptyString => [EmptyString]
  | String c r =>
      if Ascii.eqb c sep then EmptyString :: split sep r
      else match split sep r with
           | f :: fs => String c f :: fs
           | [] => [String c EmptyString]
           end
  end.

(** [s[-2:]] and [s[0:-2]]. *)
Definition last2 (s : string) : string :=
  substring (String.length s - 2) 2 s.
Definition drop_last2 (s : string) : string :=
  substring 0 (String.length s - 2) s.

(** Private names: inside [class C], an identifier with two leading
    underscores that does not end in two underscores stands for [_C] followed
    by the identifier. *)
Definition mangle (class_name identifier : string) : string :=
  if String.prefix "__" identifier
     && negb (String.eqb (last2 identifier) "__")
  then "_" ++ class_name ++ identifier
  else identifier.

(** 7-bit text: what [bytes(s, 'ASCII')] and [b.decode('ASCII')] accept. *)
Fixpoint is_ascii (s : string) : bool :=
  match s with
  | EmptyString => true
  | String c r => (nat_of_ascii c <? 128)%nat && is_ascii r
  end.

Definition encode_ascii {S} (s : string) : exec S string :=
  if is_ascii s then ret s else raise (UnicodeError s).
Definition decode_ascii {S} (b : string) : exec S string :=
  if is_ascii b then ret b else raise (UnicodeError b).

(** ** ArduinoSerial.py *)

Module ArduinoSerial.

(** The pyserial port.  [rx] scripts the peer: its n-th entry is what the
    n-th [read_until(b"\r\n")] returns, a line with its terminator, or
    whatever had arrived when the timeout expired (nothing, when the script
    is exhausted).  [tx] collects the chunks written. *)
Record Serial : Type := mkSerial {
  timeout : Q;
  rx : list string;
  tx : list string
}.

Record t : Type := mk {
  serial : Serial;
  compatible_with_AS : bool;
  logged : list string   (* the messages handed to [self._log_fn] *)
}.

Definition set_serial (s : Serial) (a : t) : t :=
  mk s (compatible_with_AS a) (logged a).
Definition set_timeout (q : Q) (a : t) : t :=
  set_serial (mkSerial q (rx (serial a)) (tx (serial a))) a.

Definition _log_fn (msg : string) : exec t unit :=
  modify (fun a => mk (serial a) (compatible_with_AS a) (logged a ++ [msg])%list).

Definition serial_write (b : string) : exec t unit :=
  modify (fun a => set_serial
    (mkSerial (timeout (serial a)) (rx (serial a)) (tx (serial a) ++ [b])%list) a).

Definition serial_read_until : exec t string :=
  fun a => match rx (serial a) with
           | [] => (inr EmptyString, a)
           | chunk :: rest =>
               (inr chunk,
                set_serial (mkSerial (timeout (serial a)) rest (tx (serial a))) a)
           end.

Definition send (string_ : string) (line_ending : string) : exec t unit :=
  b ← encode_ascii (string_ ++ line_ending);
  serial_write b.

Definition no_timeout : Q := inject_Z (-1).

Definition read_line (timeout_ : Q) : exec t (option string) :=
  a ← get;
  let old_t_out := timeout (serial a) in
  (if negb (Qeq_bool timeout_ no_timeout)
   then modify (set_timeout timeout_) else ret tt);;
  raw ← serial_read_until;
  input_str ← decode_ascii raw;
  (if negb (Qeq_bool timeout_ no_timeout)
   then modify (set_timeout old_t_out) else ret tt);;
  if String.eqb (last2 input_str) CRLF
  then ret (Some (drop_last2 input_str))
  else ret None.

(** What [ask] hands back: the fields, [None], or (on a link that is not
    programmed for it) an exception object as an ordinary value. *)
Inductive answer : Type :=
  | Fields (info : list string)
  | NoAnswer
  | ExceptionObject (e : exn).

Definition ask (msg : string) (data_num_expected : Z) (line_ending : string)
  : exec t answer :=
  a ← get;
  if negb (compatible_with_AS a)
  then ret (ExceptionObject (NotImplementedError
              "Arduino isn't compatible with AS's special methods."))
  else
    send msg line_ending;;
    ans ← read_line no_timeout;
    match ans with
    | Some ans =>
        let info := split ";" ans in
        if (2 <=? Z.of_nat (length info))
           && String.eqb (nth 0 info EmptyString) "ERROR"
        then raise (ConnectionError
                      ("Arduino returned error : " ++ nth 1 info EmptyString))
        else if Z.of_nat (length info) =? data_num_expected
        then ret (Fields info)
        else raise (ValueError ("Invalid value received from arduino: " ++ ans))
    | None =>
        if 0 <? data_num_expected
        then raise (TimeoutError "Arduino didn't return anything in time")
        else ret NoAnswer
    end.

(** [__init__]: the port is opened by pyserial; the handshake runs only on a
    link declared to follow the protocol.  The object is returned next to the
    outcome, so that what was logged before a failure is not lost. *)
Definition __init__ (programmed_for_as : bool) (port : Serial)
  : (exn + unit) * t :=
  let handshake : exec t unit :=
    if negb programmed_for_as then ret tt
    else
      _log_fn "Waiting for Arduino's CONNECT";;
      l ← read_line (inject_Z 30);
      if negb (bool_decide (l = Some "CONNECT"))
      then raise (ConnectionError "failed to connect to Arduino")
      else
        _log_fn "CONNECT received";;
        _log_fn "Sending signal";;
        send "1" "";;
        _log_fn "Sent a signal";;
        _log_fn "Waiting for READY";;
        l ← read_line no_timeout;
        if negb (bool_decide (l = Some "READY"))
        then raise (ConnectionError "Arduino wasn't ready")
        else _log_fn "READY received !"
  in
  handshake (mk port programmed_for_as []).

End ArduinoSerial.

(** ** CentralUnitCommunicator.py and CentralUnitCommunicatorFile.py *)

Module CentralUnitCommunicator.

(** A class statement, as far as [abc] looks at it: the methods the body
    declares under [@abc.abstractmethod] and the ones it defines plainly. *)
#[warnings="-register-all"]
Inductive class : Type :=
  mkClass (class_name : string) (base : option class)
          (abstract_defs concrete_defs : list string).

Definition class_name (c : class) : string :=
  let 'mkClass n _ _ _ := c in n.
Definition base (c : class) : option class :=
  let 'mkClass _ b _ _ := c in b.
Definition abstract_defs (c : class) : list string :=
  let 'mkClass _ _ a _ := c in a.
Definition concrete_defs (c : class) : list string :=
  let 'mkClass _ _ _ d := c in d.

Definition ABC : class := mkClass "ABC" None [] [].

Definition CentralUnitCommunicator : class :=
  mkClass "CentralUnitCommunicator" (Some ABC)
    ["__init__"; "__del__"; "get_cmds"; "log"]
    ["check_attrs"; "_generate_log_output"].

Definition CentralUnitCommunicatorFile : class :=
  mkClass "CentralUnitCommunicatorFile" (Some CentralUnitCommunicator)
    []
    ["__init__"; "__del__"; "get_cmd"; "get_line_end"; "log"].

(** [cls.__abstractmethods__] as [ABCMeta.__new__] computes it: the names the
    body declares abstract, and the inherited abstract names that the body
    does not define again. *)
Fixpoint abstractmethods (cls : class) : list string :=
  match cls with
  | mkClass _ b abstract concrete =>
      app abstract
      match b with
      | None => []
      | Some b =>
          filter (fun name => name ∉ (abstract ++ concrete)%list)
                 (abstractmethods b)
      end
  end.

Fixpoint issubclass (cls : class) (parent : string) : bool :=
  match cls with
  | mkClass name b _ _ =>
      String.eqb name parent ||
      match b with
      | None => false
      | Some b => issubclass b parent
      end
  end.

(** The object of the File communicator; both files are part of it. *)
Record log_line : Type := mkLine {
  line_source : string;
  line_type : string;
  line_msg : string
}.

Record t : Type := mk {
  _log_types_on : list string;
  _max_cmd : Z;
  _line_end : Z;
  input_file : list string;
  output_file : list log_line
}.

(** The keyword arguments of the constructor; [None] for one left out. *)
Record kwargs : Type := mkKwargs {
  kw_log_types_on : option (list string);
  kw_max_cmds_in_queue : option Z;
  kw_line_end : option Z
}.

Definition no_kwargs : kwargs := mkKwargs None None None.

Definition LINE_END_CR_LF : Z := 0.
Definition LINE_END_LF : Z := 1.
Definition LINE_END_CR : Z := 2.

Definition check_attrs (log_types_on : list string) (max_cmd_in_queue : Z)
  : exn + list string * Z :=
  if max_cmd_in_queue <=? 1
  then inl (ValueError "max_cmd_in_queue must be an int > 1")
  else inr (log_types_on, max_cmd_in_queue).

(** [CentralUnitCommunicatorFile.__init__]; the input file is truncated, the
    log file is kept. *)
Definition File__init__ (args : kwargs) (old_log : list log_line) : exn + t :=
  let log_types_on :=
    default ["error"; "warning"; "status"; "debug"] (kw_log_types_on args) in
  match check_attrs log_types_on (default 10 (kw_max_cmds_in_queue args)) with
  | inl e => inl e
  | inr (types_on, max_cmd) =>
      let line_end := default LINE_END_LF (kw_line_end args) in
      if negb (bool_decide
                 (line_end ∈ [LINE_END_CR_LF; LINE_END_LF; LINE_END_CR]))
      then inl (ValueError "invalid line_end")
      else inr (mk types_on max_cmd line_end [] old_log)
  end.

(** Calling a class: [object.__new__] refuses one that still has abstract
    methods, before [__init__] runs. *)
Definition instantiate (cls : class) (init : exn + t) : exn + t :=
  match abstractmethods cls with
  | [] => init
  | _ :: _ =>
      inl (TypeError ("Can't instantiate abstract class " ++ class_name cls))
  end.

(** [log]; the time stamp that [_generate_log_output] puts in front of the
    line is left out of the stored line. *)
Definition log (msg source log_type : string) : exec t unit :=
  if (String.length msg =? 0)%nat || (String.length source =? 0)%nat
     || (String.length log_type =? 0)%nat
  then raise (ValueError "no string should be empty")
  else
    c ← get;
    if bool_decide (log_type ∈ _log_types_on c)
    then put (mk (_log_types_on c) (_max_cmd c) (_line_end c) (input_file c)
                 (output_file c ++ [mkLine source log_type msg])%list)
    else ret tt.

(** [get_line_end]: the entry of [LINE_ENDING_CHARACTERS] at [_line_end]. *)
Definition LINE_ENDING_CHARACTERS : list string :=
  [CRLF; String LF EmptyString; String CR EmptyString].

Definition get_line_end : exec t string :=
  c ← get;
  if _line_end c <? 0
  then
    (* a negative index counts from the end of the list *)
    match LINE_ENDING_CHARACTERS
            !! Z.to_nat (Z.of_nat (length LINE_ENDING_CHARACTERS) + _line_end c),
          Z.of_nat (length LINE_ENDING_CHARACTERS) + _line_end c <? 0 with
    | Some ending, false => ret ending
    | _, _ => raise (IndexError "list index out of range")
    end
  else
    match LINE_ENDING_CHARACTERS !! Z.to_nat (_line_end c) with
    | Some ending => ret ending
    | None => raise (IndexError "list index out of range")
    end.

(** [__del__]: the input file is emptied. *)
Definition __del__ : exec t unit :=
  modify (fun c => mk (_log_types_on c) (_max_cmd c) (_line_end c) []
                      (output_file c)).

Section Commands.

(** [str.strip] is a parameter; [input_file] holds the lines as iterating
    over the file yields them. *)
Context (strip : string -> string).

(** The [for] loop of [get_cmd] over the lines that are left, with the
    commands gathered so far. *)
Fixpoint gather (lines : list string) (cmd : list string)
  : exec t (list string) :=
  match lines with
  | [] => ret cmd
  | line :: rest =>
      let line := strip line in
      if negb (String.length (strip line) =? 0)%nat
      then
        c ← get;
        if _max_cmd c <? Z.of_nat (length cmd) + 1
        then
          log ("maximum of " ++ str_int (_max_cmd c) ++ " commands in "
               ++ "queue exceeded") "communicator" "warning";;
          ret cmd
        else gather rest (cmd ++ [line])%list
      else gather rest cmd
  end.

Definition get_cmd : exec t (list string) :=
  get_line_end;;
  c ← get;
  cmd ← gather (input_file c) [];
  (if (0 <? length cmd)%nat
   then modify (fun c => mk (_log_types_on c) (_max_cmd c) (_line_end c) []
                            (output_file c))
   else ret tt);;
  ret cmd.

End Commands.

End CentralUnitCommunicator.

(** ** CentralUnit.py *)

Module CentralUnit.

Definition USER_MODE_AUTO : Z := 1.
Definition USER_MODE_OPEN : Z := 2.
Definition USER_MODE_CLOSE : Z := 3.
Definition SHUTTERS_OPENED : Z := 4.
Definition SHUTTERS_CLOSED : Z := 5.
Definition PLAIN_DAY : Z := 6.
Definition PLAIN_NIGHT : Z := 7.
Definition ARDUINO_OPEN_SHUTTERS : Z := 8.
Definition ARDUINO_CLOSE_SHUTTERS : Z := 16.
Definition ARDUINO_GET_ENV : Z := 32.

#[global] Instance value_eq_dec : EqDecision value.
Proof. solve_decision. Defined.

(** *** The command grammar held by the argument parser *)

Record argument : Type := mkArg {
  dest : string;
  is_option : bool;               (* declared as [--dest] *)
  type_ : string -> exn + value;
  choices : option (list value)
}.

(** One entry per [add_parser] call: the command and its declared arguments. *)
Record ArgumentParser : Type := mkParser {
  subcommands : list (string * list argument)
}.

Definition namespace : Type := list (string * value).

Fixpoint assoc {A} (k : string) (l : list (string * A)) : option A :=
  match l with
  | [] => None
  | (k', v) :: r => if String.eqb k k' then Some v else assoc k r
  end.

Fixpoint assoc_set {A} (k : string) (v : A) (l : list (string * A))
  : list (string * A) :=
  match l with
  | [] => [(k, v)]
  | (k', v') :: r =>
      if String.eqb k k' then (k, v) :: r else (k', v') :: assoc_set k v r
  end.

Fixpoint assoc_del {A} (k : string) (l : list (string * A))
  : list (string * A) :=
  match l with
  | [] => []
  | (k', v') :: r =>
      if String.eqb k k' then assoc_del k r else (k', v') :: assoc_del k r
  end.

Definition add_parser (name : string) (p : ArgumentParser) : ArgumentParser :=
  mkParser (subcommands p ++ [(name, [])])%list.

Definition add_argument (name : string) (a : argument) (p : ArgumentParser)
  : ArgumentParser :=
  mkParser (map (fun '(n, args) =>
                   if String.eqb n name then (n, (args ++ [a])%list)
                   else (n, args))
                (subcommands p)).

Definition convert (a : argument) (text : string) : exn + value :=
  match type_ a text with
  | inl e => inl e
  | inr v =>
      match choices a with
      | Some allowed =>
          if bool_decide (v ∈ allowed) then inr v
          else inl (ArgumentError
                      ("argument " ++ dest a ++ ": invalid choice: " ++ text))
      | None => inr v
      end
  end.

Definition is_flag (token : string) : bool := String.prefix "--" token.
Definition flag_dest (token : string) : string :=
  substring 2 (String.length token - 2) token.

Fixpoint parse_tokens (args : list argument) (tokens : list string)
    (positionals : list argument) (ns : namespace) : exn + namespace :=
  match tokens with
  | [] =>
      match positionals with
      | [] => inr ns
      | a :: _ =>
          inl (ArgumentError
                 ("the following arguments are required: " ++ dest a))
      end
  | token :: rest =>
      if is_flag token then
        match find (fun a => is_option a && String.eqb (dest a) (flag_dest token))
                   args with
        | None => inl (ArgumentError ("unrecognized arguments: " ++ token))
        | Some a =>
            match rest with
            | [] => inl (ArgumentError
                           ("argument " ++ token ++ ": expected one argument"))
            | text :: rest' =>
                match convert a text with
                | inl e => inl e
                | inr v =>
                    parse_tokens args rest' positionals (assoc_set (dest a) v ns)
                end
            end
        end
      else
        match positionals with
        | [] => inl (ArgumentError ("unrecognized arguments: " ++ token))
        | a :: positionals' =>
            match convert a token with
            | inl e => inl e
            | inr v =>
                parse_tokens args rest positionals' (assoc_set (dest a) v ns)
            end
        end
  end.

(** Modelled from the spec: [argparseNoExit] is not among the sources.  A
    command is a command name followed by named options in [--key value]
    form or by positional values; an unknown command or a malformed option
    is a syntax error ([ArgumentError]), a value its validator refuses
    raises what the validator raises.  The namespace holds the command under
    ["command"] (the [dest] of [add_subparsers]) and every declared argument,
    [None] when the command line does not give it. *)
Definition parse_args (p : ArgumentParser) (tokens : list string)
  : exn + namespace :=
  match tokens with
  | [] => inr [("command", VNone)]
  | command :: rest =>
      match assoc command (subcommands p) with
      | None =>
          inl (ArgumentError
                 ("argument command: invalid choice: " ++ command))
      | Some args =>
          parse_tokens args rest
            (filter (fun a => negb (is_option a)) args)
            (("command", VStr command)
               :: map (fun a => (dest a, VNone)) args)
      end
  end.

(** *** The object and the world around it *)

Record t : Type := mk {
  _CentralUnit__loop : option bool;
  _CentralUnit__last_closed : option Z;
  _CentralUnit__shutters_state : option Z;
  _CentralUnit__argparser : option ArgumentParser;
  _CentralUnit__config : option (gmap string value);
  _CentralUnit__last_check : option Q;
  _last_closed : option Q;
  arduino : option ArduinoSerial.t;
  _Communicator : option CentralUnitCommunicator.t
    (* [_log_fn] and [_get_cmd_fn] are bound methods of this object and are
       assigned right after it *)
}.

Definition blank : t := mk None None None None None None None None None.

(** [time_time n] is what the n-th call of [time.time()] returns; [tm_hour]
    and [daylight] are [time.localtime().tm_hour] and [time.daylight]. *)
Record state : Type := mkState {
  self : t;
  time_time : nat -> Q;
  time_calls : nat;
  tm_hour : Z;
  daylight : Z
}.

Definition on_self (f : t -> t) (st : state) : state :=
  mkState (f (self st)) (time_time st) (time_calls st) (tm_hour st) (daylight st).

Definition set__loop v (o : t) : t :=
  mk v (_CentralUnit__last_closed o) (_CentralUnit__shutters_state o)
     (_CentralUnit__argparser o) (_CentralUnit__config o)
     (_CentralUnit__last_check o) (_last_closed o) (arduino o) (_Communicator o).
Definition set__last_closed v (o : t) : t :=
  mk (_CentralUnit__loop o) v (_CentralUnit__shutters_state o)
     (_CentralUnit__argparser o) (_CentralUnit__config o)
     (_CentralUnit__last_check o) (_last_closed o) (arduino o) (_Communicator o).
Definition set__shutters_state v (o : t) : t :=
  mk (_CentralUnit__loop o) (_CentralUnit__last_closed o) v
     (_CentralUnit__argparser o) (_CentralUnit__config o)
     (_CentralUnit__last_check o) (_last_closed o) (arduino o) (_Communicator o).
Definition set__argparser v (o : t) : t :=
  mk (_CentralUnit__loop o) (_CentralUnit__last_closed o)
     (_CentralUnit__shutters_state o) v (_CentralUnit__config o)
     (_CentralUnit__last_check o) (_last_closed o) (arduino o) (_Communicator o).
Definition set__config v (o : t) : t :=
  mk (_CentralUnit__loop o) (_CentralUnit__last_closed o)
     (_CentralUnit__shutters_state o) (_CentralUnit__argparser o) v
     (_CentralUnit__last_check o) (_last_closed o) (arduino o) (_Communicator o).
Definition set__last_check v (o : t) : t :=
  mk (_CentralUnit__loop o) (_CentralUnit__last_closed o)
     (_CentralUnit__shutters_state o) (_CentralUnit__argparser o)
     (_CentralUnit__config o) v (_last_closed o) (arduino o) (_Communicator o).
Definition set_last_closed v (o : t) : t :=
  mk (_CentralUnit__loop o) (_CentralUnit__last_closed o)
     (_CentralUnit__shutters_state o) (_CentralUnit__argparser o)
     (_CentralUnit__config o) (_CentralUnit__last_check o) v (arduino o)
     (_Communicator o).
Definition set_arduino v (o : t) : t :=
  mk (_CentralUnit__loop o) (_CentralUnit__last_closed o)
     (_CentralUnit__shutters_state o) (_CentralUnit__argparser o)
     (_CentralUnit__config o) (_CentralUnit__last_check o) (_last_closed o) v
     (_Communicator o).
Definition set_Communicator v (o : t) : t :=
  mk (_CentralUnit__loop o) (_CentralUnit__last_closed o)
     (_CentralUnit__shutters_state o) (_CentralUnit__argparser o)
     (_CentralUnit__config o) (_CentralUnit__last_check o) (_last_closed o)
     (arduino o) v.

(** [self.name]: an unassigned attribute raises. *)
Definition getattr {A} (slot : t -> option A) (name : string) : exec state A :=
  fun st => match slot (self st) with
            | Some v => (inr v, st)
            | None => (inl (AttributeError name), st)
            end.

(** [self.name = v] *)
Definition setattr {A} (set : option A -> t -> t) (v : A) : exec state unit :=
  modify (on_self (set (Some v))).

(** [del self.name] *)
Definition delattr {A} (slot : t -> option A) (set : option A -> t -> t)
    (name : string) : exec state unit :=
  getattr slot name;; modify (on_self (set None)).

(** A method call on the object held by an attribute. *)
Definition on_attr {X A} (slot : t -> option X) (set : option X -> t -> t)
    (name : string) (m : exec X A) : exec state A :=
  x ← getattr slot name;
  ((fun st => let '(r, x') := m x in (r, on_self (set (Some x')) st))
   : exec state A).

(** [time.time()] *)
Definition time : exec state Q :=
  fun st => (inr (time_time st (time_calls st)),
             mkState (self st) (time_time st) (S (time_calls st))
                     (tm_hour st) (daylight st)).

(** [time.localtime().tm_hour] and [time.daylight] *)
Definition localtime_tm_hour : exec state Z := fun st => (inr (tm_hour st), st).
Definition time_daylight : exec state Z := fun st => (inr (daylight st), st).

Definition _log_fn (msg source log_type : string) : exec state unit :=
  on_attr _Communicator set_Communicator "_log_fn"
          (CentralUnitCommunicator.log msg source log_type).

Definition arduino_ask (msg : string) (data_num_expected : Z)
    (line_ending : string) : exec state ArduinoSerial.answer :=
  on_attr arduino set_arduino "arduino"
          (ArduinoSerial.ask msg data_num_expected line_ending).

(** [d[key]] *)
Definition subscript (d : gmap string value) (key : string) : exec state value :=
  match d !! key with
  | Some v => ret v
  | None => raise (KeyError key)
  end.

(** [self.__config[key]] *)
Definition config (key : string) : exec state value :=
  d ← getattr _CentralUnit__config "_CentralUnit__config";
  subscript d key.

(** Short-circuit [or] and [and], as far as the truth of the result goes. *)
Definition or_else {S} (a b : exec S bool) : exec S bool :=
  x ← a; if (x : bool) then ret true else b.
Definition and_then {S} (a b : exec S bool) : exec S bool :=
  x ← a; if (x : bool) then b else ret false.

(** *** Text of values, as [str] and [repr] give it *)

Definition QUOTE : string := String "039"%char EmptyString.
Definition DQUOTE : string := String "034"%char EmptyString.
Definition NEWLINE : string := String LF EmptyString.

Definition str_value (v : value) : string :=
  match v with
  | VNone => "None"
  | VInt z => str_int z
  | VBool true => "True"
  | VBool false => "False"
  | VStr s => s
  end.

Definition repr_value (v : value) : string :=
  match v with
  | VStr s => QUOTE ++ s ++ QUOTE
  | _ => str_value v
  end.

Definition repr_dict (d : namespace) : string :=
  "{" ++ String.concat ", "
           (map (fun '(k, v) => QUOTE ++ k ++ QUOTE ++ ": " ++ repr_value v) d)
      ++ "}".

Definition str_exn (e : exn) : string :=
  match e with
  | NotImplementedError m | ConnectionError m | ValueError m | TimeoutError m
  | TypeError m | IndexError m | ArgumentError m => m
  | KeyError k => QUOTE ++ k ++ QUOTE
  | AttributeError n =>
      "'CentralUnit' object has no attribute " ++ QUOTE ++ n ++ QUOTE
  | UnicodeError c => "'ascii' codec can't convert " ++ c
  | ModuleNotFoundError n => "No module named " ++ QUOTE ++ n ++ QUOTE
  | SystemExit c => str_int c
  end.

(** [v == n] for an int [n]: never raises. *)
Definition eq_int (v : value) (n : Z) : bool :=
  match v with
  | VInt z => z =? n
  | VBool b => Z.b2z b =? n
  | _ => false
  end.

Definition int_of {S} (v : value) : exec S Z := lift_sum (as_int v).

Fixpoint for_each {S A} (l : list A) (body : A -> exec S unit) : exec S unit :=
  match l with
  | [] => ret tt
  | x :: r => body x;; for_each r body
  end.

Section Methods.

(** The built-ins on text: [int(s)] and [float(s)] ([None] where Python
    raises [ValueError]), and [str] of a float for the log. *)
Context (builtin_int : string -> option Z)
        (builtin_float : string -> option pyfloat)
        (builtin_str_float : pyfloat -> string).

Definition int_ (text : string) : exn + Z :=
  match builtin_int text with
  | Some z => inr z
  | None => inl (ValueError ("invalid literal for int() with base 10: "
                             ++ QUOTE ++ text ++ QUOTE))
  end.

Definition float_ {S} (text : string) : exec S pyfloat :=
  match builtin_float text with
  | Some f => ret f
  | None => raise (ValueError ("could not convert string to float: "
                               ++ QUOTE ++ text ++ QUOTE))
  end.

(** [ans[i]] on what [ask] returned. *)
Definition item (ans : ArduinoSerial.answer) (i : nat) : exec state string :=
  match ans with
  | ArduinoSerial.Fields info =>
      match info !! i with
      | Some field => ret field
      | None => raise (IndexError "list index out of range")
      end
  | ArduinoSerial.NoAnswer =>
      raise (TypeError "'NoneType' object is not subscriptable")
  | ArduinoSerial.ExceptionObject _ =>
      raise (TypeError "'NotImplementedError' object is not subscriptable")
  end.

Definition _check_luminosity_and_temp : exec state (pyfloat * pyfloat) :=
  ans ← arduino_ask (str_int ARDUINO_GET_ENV) 2 "";
  field ← item ans 0;
  temp ← float_ field;
  if float_le (of_int (-40)) temp && float_le temp (of_int 60)
  then raise (ValueError "Arduino returned an invalid temperature.")
  else
    field ← item ans 1;
    lum ← float_ field;
    if float_lt lum (of_int 0)
    then raise (ValueError "Arduino returned an invalid luminosity.")
    else ret (temp, lum).

Definition _close_shutters_if_opened : exec state unit :=
  shutters_state ← getattr _CentralUnit__shutters_state
                     "_CentralUnit__shutters_state";
  if negb (shutters_state =? SHUTTERS_CLOSED)
  then
    _log_fn "Closing shutters" "core/shutters" "status";;
    arduino_ask (str_int ARDUINO_CLOSE_SHUTTERS) 0 "";;
    setattr set__shutters_state SHUTTERS_CLOSED;;
    now ← time;
    setattr set_last_closed now;;
    _log_fn "Done closing shutters" "core/shutters" "status"
  else _log_fn "Shutters are already closed" "core/shutters" "debug".

Definition _open_shutters_if_closed : exec state unit :=
  shutters_state ← getattr _CentralUnit__shutters_state
                     "_CentralUnit__shutters_state";
  if negb (shutters_state =? SHUTTERS_OPENED)
  then
    _log_fn "Opening shutters" "core/shutters" "status";;
    arduino_ask (str_int ARDUINO_OPEN_SHUTTERS) 0 "";;
    setattr set__shutters_state SHUTTERS_OPENED;;
    _log_fn "Done opening shutters" "core/shutters" "status"
  else _log_fn "Shutters are already opened" "core/shutters" "debug".

(** [None] is the fall-through at the end of the body. *)
Definition _get_day_time (hour : Z) (lum : pyfloat) : exec state (option Z) :=
  sunrise_hour ← config "sunrise_hour";
  sunset_hour ← config "sunset_hour";
  night ← or_else (s ← int_of sunset_hour; ret (s <? hour))
                  (r ← int_of sunrise_hour; ret (hour <? r));
  if (night : bool) then ret (Some PLAIN_NIGHT)
  else
    day ← and_then (s ← int_of sunset_hour; ret (hour <? s))
                   (r ← int_of sunrise_hour; ret (r <? hour));
    if (day : bool) then ret (Some PLAIN_DAY)
    else
      threshold ← config "low_light_threshold";
      threshold ← int_of threshold;
      let low_lum := float_le lum (of_int threshold) in
      if eq_int sunrise_hour hour
      then
        closed ← and_then (ret low_lum)
                   (s ← getattr _CentralUnit__shutters_state
                          "_CentralUnit__shutters_state";
                    ret (s =? SHUTTERS_CLOSED));
        if (closed : bool) then ret (Some PLAIN_NIGHT) else ret (Some PLAIN_DAY)
      else if eq_int sunset_hour hour
      then
        opened ← and_then (ret (negb low_lum))
                   (s ← getattr _CentralUnit__shutters_state
                          "_CentralUnit__shutters_state";
                    ret (s =? SHUTTERS_OPENED));
        if (opened : bool) then ret (Some PLAIN_DAY) else ret (Some PLAIN_NIGHT)
      else ret None.

(** The test of the [if] in [_automatic_shutters], operand by operand. *)
Definition must_close (day_moment : option Z) (hour : Z) (temp lum : pyfloat)
  : exec state bool :=
  or_else (ret (bool_decide (day_moment = Some PLAIN_NIGHT)))
 (or_else
    (and_then (adapt ← config "adapt_with_env_in_plain_day";
               ret (truthy adapt))
       (or_else
          (and_then (t ← config "low_temp_threshold"; t ← int_of t;
                     ret (float_lt temp (of_int t)))
                    (l ← config "low_light_threshold"; l ← int_of l;
                     ret (float_lt lum (of_int l))))
          (and_then (t ← config "high_temp_threshold"; t ← int_of t;
                     ret (float_lt (of_int t) temp))
                    (dst ← time_daylight;
                     ret (Z.abs (hour - (13 + dst)) <=? 4)))))
    (last_closed ← getattr _last_closed "_last_closed";
     now ← time;
     ret (Qlt_bool (now - inject_Z 3600) last_closed))).

Definition _automatic_shutters (temp lum : pyfloat) : exec state unit :=
  hour ← localtime_tm_hour;
  day_moment ← _get_day_time hour lum;
  _log_fn (builtin_str_float temp ++ "Â°C, " ++ builtin_str_float lum
           ++ "lux, " ++ str_int hour ++ "th hour, "
           ++ (if bool_decide (day_moment = Some PLAIN_DAY)
               then "plain day" else "plain night"))
          "core/shutters" "debug";;
  close ← must_close day_moment hour temp lum;
  if (close : bool) then _close_shutters_if_opened
  else _open_shutters_if_closed.

Definition _update_shutters : exec state unit :=
  user_mode ← config "user_mode";
  if eq_int user_mode USER_MODE_OPEN then _open_shutters_if_closed
  else
    user_mode ← config "user_mode";
    if eq_int user_mode USER_MODE_CLOSE then _close_shutters_if_opened
    else
      due ← and_then (m ← config "user_mode"; ret (eq_int m USER_MODE_AUTO))
              (now ← time;
               last_check ← getattr _CentralUnit__last_check
                              "_CentralUnit__last_check";
               time_check ← config "time_check";
               time_check ← int_of time_check;
               ret (Qlt_bool (inject_Z time_check) (now - last_check)));
      if (due : bool)
      then
        _log_fn "Automatically updating shutters" "core/shutters" "info";;
        '(temp, lum) ← _check_luminosity_and_temp;
        _automatic_shutters temp lum;;
        now ← time;
        setattr set__last_check now
      else ret tt.

(** *** Operator commands *)

Definition _cmd_shutdown : exec state unit := setattr set__loop false.

Definition _cmd_log_setting (name : string) : exec state unit :=
  v ← config name;
  _log_fn (name ++ " is " ++ str_value v) "core/cmd" "status".

Definition _cmd_set_settings (settings : namespace) : exec state unit :=
  for_each settings (fun '(name, val) =>
    if negb (bool_decide (val = VNone))
    then
      d ← getattr _CentralUnit__config "_CentralUnit__config";
      setattr set__config (<[name := val]> d);;
      _log_fn (name ++ " now has " ++ str_value val ++ " is now")
              "core/cmd" "status"
    else ret tt).

Definition _cmd_force_update : exec state unit :=
  last_check ← getattr _CentralUnit__last_check "_CentralUnit__last_check";
  time_check ← config "time_check";
  time_check ← int_of time_check;
  setattr set__last_check (last_check - inject_Z (time_check + 1))%Q.

(** [getattr(self, fn_name)] for a name that starts with [_cmd_], applied to
    the keyword arguments: the four methods of the class with such a name.
    No instance attribute has a name of that form. *)
Definition no_arguments (fn_name : string) (m : exec state unit)
    (args : namespace) : exec state unit :=
  match args with
  | [] => m
  | (k, _) :: _ =>
      raise (TypeError (fn_name ++ "() got an unexpected keyword argument "
                        ++ QUOTE ++ k ++ QUOTE))
  end.

Definition command_method (fn_name : string)
  : option (namespace -> exec state unit) :=
  if String.eqb fn_name "_cmd_shutdown"
  then Some (no_arguments fn_name _cmd_shutdown)
  else if String.eqb fn_name "_cmd_log_setting"
  then Some (fun args =>
         match args with
         | [("name", VStr name)] => _cmd_log_setting name
         | _ => raise (TypeError "_cmd_log_setting() takes the argument 'name'")
         end)
  else if String.eqb fn_name "_cmd_set_settings"
  then Some _cmd_set_settings
  else if String.eqb fn_name "_cmd_force_update"
  then Some (no_arguments fn_name _cmd_force_update)
  else None.

Definition parse_command (cmd : string) : exec state unit :=
  let err_before := "command " ++ DQUOTE ++ cmd ++ DQUOTE ++ ": " in
  let in_command := split " " cmd in
  argparser ← getattr _CentralUnit__argparser "_CentralUnit__argparser";
  match parse_args argparser in_command with
  | inl (ArgumentError e) =>
      _log_fn (err_before ++ " syntax: " ++ e) "core/cmd" "error"
  | inl (TypeError e) | inl (ValueError e) =>
      _log_fn (err_before ++ " parameters: " ++ e) "core/cmd" "error"
  | inl e => raise e
  | inr sanitized_output =>
      match assoc "command" sanitized_output with
      | None => raise (KeyError "command")
      | Some (VStr command) =>
          let fn_name := "_cmd_" ++ command in
          let args := assoc_del "command" sanitized_output in
          _log_fn ("running function " ++ fn_name ++ " with " ++ DQUOTE
                   ++ repr_dict args ++ DQUOTE ++ " for kwargs")
                  "core/cmd" "debug";;
          match command_method fn_name with
          | Some method => method args
          | None => raise (AttributeError fn_name)
          end
      | Some _ => raise (TypeError "can only concatenate str to str")
      end
  end.

(** *** Start-up *)

Definition type_int (text : string) : exn + value :=
  match int_ text with inl e => inl e | inr val => inr (VInt val) end.

Definition valid_time (in_val : string) : exn + value :=
  match int_ in_val with
  | inl e => inl e
  | inr val =>
      if val <? 0 then inl (ValueError "a valid_time should be an int >= 0")
      else inr (VInt val)
  end.

Definition lux (in_val : string) : exn + value :=
  match int_ in_val with
  | inl e => inl e
  | inr val =>
      if val <? 0 then inl (ValueError "lux should be an int >= 0")
      else inr (VInt val)
  end.

Definition low_tmp36_temp (in_val : string) : exn + value :=
  match int_ in_val with
  | inl e => inl e
  | inr val =>
      if negb ((-40 <=? val) && (val <=? 16))
      then inl (ValueError "a low_tmp36_temp should be an int between-40 and 16")
      else inr (VInt val)
  end.

Definition high_tmp36_temp (in_val : string) : exn + value :=
  match int_ in_val with
  | inl e => inl e
  | inr val =>
      if negb ((17 <=? val) && (val <=? 60))
      then inl (ValueError "a high_tmp36_temp should be an int between17 and 60")
      else inr (VInt val)
  end.

Definition bool_from_int (in_val : string) : exn + value :=
  match int_ in_val with
  | inl e => inl e
  | inr val => inr (VBool (negb (val =? 0)))
  end.

Definition type_str (text : string) : exn + value := inr (VStr text).

(** [subparsers[key].add_argument(...)]: the dictionary maps a key to the
    sub-parser that [add_parser] returned, which lives in the main parser
    under the command's name; the argument is built after the look-up. *)
Definition subparsers_add_argument (subparsers : gmap string string)
    (key : string) (a : exec state argument) : exec state unit :=
  match subparsers !! key with
  | None => raise (KeyError key)
  | Some command =>
      a ← a;
      p ← getattr _CentralUnit__argparser "_CentralUnit__argparser";
      setattr set__argparser (add_argument command a p)
  end.

(** The body of [_init_commands].  The key under which the options of
    [set_settings] are looked up in [subparsers] is a parameter, so that the
    grammar the declarations describe can be built as well; the source has
    the key [set_setting]. *)
Definition declare_commands (set_key : string) : exec state unit :=
  p ← getattr _CentralUnit__argparser "_CentralUnit__argparser";
  setattr set__argparser
    (add_parser "shutdown" (add_parser "force_update"
       (add_parser "get_setting" (add_parser "set_settings" p))));;
  let subparsers : gmap string string :=
    <["set_settings" := "set_settings"]>
      (<["log_setting" := "get_setting"]>
         (<["force_update" := "force_update"]>
            (<["shutdown" := "shutdown"]> ∅))) in
  subparsers_add_argument subparsers set_key
    (ret (mkArg "user_mode" true type_int
            (Some [VInt USER_MODE_AUTO; VInt USER_MODE_OPEN;
                   VInt USER_MODE_CLOSE])));;
  subparsers_add_argument subparsers set_key
    (ret (mkArg "time_check" true valid_time None));;
  subparsers_add_argument subparsers set_key
    (ret (mkArg "sunrise_hour" true type_int (Some (VInt <$> seqZ 0 10))));;
  subparsers_add_argument subparsers set_key
    (ret (mkArg "sunset_hour" true type_int (Some (VInt <$> seqZ 14 9))));;
  subparsers_add_argument subparsers set_key
    (ret (mkArg "low_light_threshold" true lux None));;
  subparsers_add_argument subparsers set_key
    (ret (mkArg "low_temp_threshold" true low_tmp36_temp None));;
  subparsers_add_argument subparsers set_key
    (ret (mkArg "high_temp_threshold" true high_tmp36_temp None));;
  subparsers_add_argument subparsers set_key
    (ret (mkArg "adapt_with_env_in_plain_day" true bool_from_int None));;
  subparsers_add_argument subparsers "log_setting"
    (d ← getattr _CentralUnit__config "_CentralUnit__config";
     ret (mkArg "name" false type_str
            (Some (VStr <$> elements (dom d))))).

Definition _init_commands : exec state unit := declare_commands "set_setting".

(** The settings, typed; [config_of] is the dictionary that holds them. *)
Record settings : Type := mkSettings {
  user_mode : Z;
  time_check : Z;
  sunrise_hour : Z;
  sunset_hour : Z;
  low_light_threshold : Z;
  low_temp_threshold : Z;
  high_temp_threshold : Z;
  adapt_with_env_in_plain_day : bool
}.

Definition config_of (c : settings) : gmap string value :=
  <["user_mode" := VInt (user_mode c)]>
 (<["time_check" := VInt (time_check c)]>
 (<["sunrise_hour" := VInt (sunrise_hour c)]>
 (<["sunset_hour" := VInt (sunset_hour c)]>
 (<["low_light_threshold" := VInt (low_light_threshold c)]>
 (<["low_temp_threshold" := VInt (low_temp_threshold c)]>
 (<["high_temp_threshold" := VInt (high_temp_threshold c)]>
 (<["adapt_with_env_in_plain_day" := VBool (adapt_with_env_in_plain_day c)]>
  ∅))))))).

Definition default_settings : settings :=
  mkSettings USER_MODE_AUTO 600 7 19 100 0 30 true.

Definition _init_attributes : exec state unit :=
  setattr set__loop true;;
  setattr set__last_closed 0;;
  setattr set__shutters_state SHUTTERS_OPENED;;
  setattr set__argparser (mkParser []);;
  _init_commands;;
  setattr set__config (config_of default_settings);;
  now ← time;
  time_check ← config "time_check";
  time_check ← int_of time_check;
  setattr set__last_check (now - inject_Z time_check)%Q.

(** [import_module(class_name)] finds the one communicator module of the
    repository; the lines already in the log file are not represented. *)
Definition import_class (class_name : string)
  : exec state CentralUnitCommunicator.class :=
  if String.eqb class_name "CentralUnitCommunicatorFile"
  then ret CentralUnitCommunicator.CentralUnitCommunicatorFile
  else raise (ModuleNotFoundError class_name).

Definition _init_communicator (suffix : string)
    (args : CentralUnitCommunicator.kwargs) : exec state unit :=
  let class_name := "CentralUnitCommunicator" ++ suffix in
  comm_class ← import_class class_name;
  if negb (CentralUnitCommunicator.issubclass comm_class
             "CentralUnitCommunicator")
  then raise (TypeError
    ("Invalid suffix for central unit's communicator class, the imported "
     ++ "class isn't a CentralUnitCommunicator's subclass"))
  else
    c ← lift_sum (CentralUnitCommunicator.instantiate comm_class
                    (CentralUnitCommunicator.File__init__ args []));
    setattr set_Communicator c.

(** The port is what pyserial opened for the given arguments; the link's
    log function hands each message to the communicator. *)
Definition _init_arduino (port : ArduinoSerial.Serial) : exec state unit :=
  let '(r, a) := ArduinoSerial.__init__ true port in
  for_each (ArduinoSerial.logged a)
           (fun msg => _log_fn msg "arduino-serial" "status");;
  match r with
  | inl e => raise e
  | inr _ => setattr set_arduino a
  end.

(** [exit(code)] raises [SystemExit]; the text of the traceback that follows
    the error's own message in the log is left out. *)
Definition _proper_exit (code : Z) (error : option exn) : exec state unit :=
  match error with
  | Some e => _log_fn (str_exn e ++ NEWLINE) "core/init" "error"
  | None => ret tt
  end;;
  _log_fn "shutting down" "core" "status";;
  try_except
    (delattr _Communicator set_Communicator "_Communicator";;
     delattr arduino set_arduino "arduino")
    (fun e => match e with AttributeError _ => Some (ret tt) | _ => None end);;
  raise (SystemExit code).

Definition suffix_matches (suffix : string) : bool :=
  match suffix with
  | String c _ =>
      let n := nat_of_ascii c in
      ((65 <=? n) && (n <=? 90) || (48 <=? n) && (n <=? 57))%nat
  | EmptyString => false
  end.

Definition __init__ (initialisation_command : string)
    (communicator_suffix : string)
    (communicator_args : option CentralUnitCommunicator.kwargs)
    (port : ArduinoSerial.Serial) : exec state unit :=
  if negb (suffix_matches communicator_suffix)
  then raise (ValueError "Invalid suffix for central unit's communicatorclass")
  else
    let communicator_args :=
      default CentralUnitCommunicator.no_kwargs communicator_args in
    _init_communicator communicator_suffix communicator_args;;
    try_except
      (_init_attributes;;
       _init_arduino port;;
       parse_command initialisation_command)
      (fun e => match e with
                | SystemExit _ => None
                | _ => Some (_proper_exit 1 (Some e))
                end).

End Methods.

End CentralUnit.

(** ** Instances of the built-ins, on plain decimal literals

    Enough of [int], [float] and [str] to run the methods on concrete
    inputs: an optional sign, digits and, for a float, a fraction. *)

Module Literal.

Definition int (s : string) : option Z :=
  Z.of_int <$> NilZero.int_of_string s.

Definition digits (s : string) : option Z :=
  match s with
  | EmptyString => None
  | String c _ => if Ascii.eqb c "-" then None else int s
  end.

Definition unsigned (s : string) : option Q :=
  match split "." s with
  | [whole] => inject_Z <$> digits whole
  | [whole; fraction] =>
      w ← digits whole;
      f ← digits fraction;
      Some (inject_Z w + inject_Z f / inject_Z (10 ^ Z.of_nat (String.length fraction)))%Q
  | _ => None
  end.

Definition float (s : string) : option pyfloat :=
  match s with
  | String "-" r => (fun q => FNum (- q)%Q) <$> unsigned r
  | _ => FNum <$> unsigned s
  end.

Definition str_float (f : pyfloat) : string :=
  match f with
  | FNaN => "nan"
  | FInf true => "-inf"
  | FInf false => "inf"
  | FNum q =>
      if (Qden q =? 1)%positive then str_int (Qnum q) ++ ".0"
      else str_int (Qnum q) ++ "/" ++ str_int (Zpos (Qden q))
  end.

(** [str.strip()] on ASCII text: the white space of [str.isspace], which is
    tab to carriage return, the four separators and the space. *)
Definition isspace (c : ascii) : bool :=
  let n := nat_of_ascii c in
  ((9 <=? n) && (n <=? 13) || (28 <=? n) && (n <=? 32))%nat.

Fixpoint lstrip (s : string) : string :=
  match s with
  | String c r => if isspace c then lstrip r else s
  | EmptyString => EmptyString
  end.

Fixpoint rstrip (s : string) : string :=
  match s with
  | String c r =>
      match rstrip r with
      | EmptyString => if isspace c then EmptyString else String c EmptyString
      | r' => String c r'
      end
  | EmptyString => EmptyString
  end.

Definition strip (s : string) : string := rstrip (lstrip s).

End Literal.

(** ** Vocabulary of the statements *)

Module Import Vocabulary.
Import ArduinoSerial.

(** A link that follows the protocol, by its parts. *)
Definition link (t : Q) (rx tx : list string) (lg : list string)
  : ArduinoSerial.t :=
  mk (mkSerial t rx tx) true lg.

(** What [ask] makes of a line the peer sent. *)
Definition reply (data_num_expected : Z) (ans : string) : exn + answer :=
  let info := split ";" ans in
  if (2 <=? Z.of_nat (length info))
     && String.eqb (nth 0 info EmptyString) "ERROR"
  then inl (ConnectionError
              ("Arduino returned error : " ++ nth 1 info EmptyString))
  else if Z.of_nat (length info) =? data_num_expected
  then inr (Fields info)
  else inl (ValueError ("Invalid value received from arduino: " ++ ans)).

Import CentralUnit.

(** [st1] is [st] but for the log file and the number of clock readings. *)
Definition up_to_log_and_clock (st st1 : state) : Prop :=
  set_Communicator None (self st1) = set_Communicator None (self st)
  /\ (is_Some (_Communicator (self st)) -> is_Some (_Communicator (self st1)))
  /\ time_time st1 = time_time st
  /\ tm_hour st1 = tm_hour st
  /\ daylight st1 = daylight st.

(** [st1] is [st] but for the log file. *)
Definition after_logging (st st1 : state) : Prop :=
  up_to_log_and_clock st st1 /\ time_calls st1 = time_calls st.

(** The recorded shutter state and the time of the last closing. *)
Definition shutter_fields (st : state) : option Z * option Q :=
  (_CentralUnit__shutters_state (self st), _last_closed (self st)).

(** The File communicator with its default arguments and an empty log. *)
Definition communicator0 : CentralUnitCommunicator.t :=
  CentralUnitCommunicator.mk ["error"; "warning"; "status"; "debug"] 10
    CentralUnitCommunicator.LINE_END_LF [] [].

(** The unit as the assignments of start-up leave it, with the settings [c],
    a link whose peer behaves as [rx] scripts, at hour [hour]. *)
Definition started (c : settings) (rx : list string) (hour : Z) : state :=
  mkState
    (mk (Some true) (Some 0) (Some SHUTTERS_OPENED) (Some (mkParser []))
        (Some (config_of c)) (Some 0%Q) None (Some (link 1 rx [] []))
        (Some communicator0))
    (fun n => 1700000000 + inject_Z (Z.of_nat n))%Q 0 hour 0.

(** The unit whose parser holds the grammar that the declarations of
    [_init_commands] describe: they are entered under the key
    [set_settings], on a unit whose settings are assigned already, since the
    declaration of [name] reads their keys. *)
Definition declared (c : settings) : state :=
  snd (declare_commands Literal.int "set_settings" (started c [] 12)).

(** The messages logged so far with the type [status], and with [error]. *)
Definition status_lines (st : state) : list string :=
  match _Communicator (self st) with
  | Some comm =>
      CentralUnitCommunicator.line_msg <$>
        filter (fun l => CentralUnitCommunicator.line_type l = "status")
               (CentralUnitCommunicator.output_file comm)
  | None => []
  end.

Definition error_lines (st : state) : list string :=
  match _Communicator (self st) with
  | Some comm =>
      CentralUnitCommunicator.line_msg <$>
        filter (fun l => CentralUnitCommunicator.line_type l = "error")
               (CentralUnitCommunicator.output_file comm)
  | None => []
  end.

(** The eight settings as the dictionary holds them. *)
Definition shown_settings (st : state) : list (string * option value) :=
  match _CentralUnit__config (self st) with
  | Some d =>
      map (fun k => (k, d !! k))
          ["user_mode"; "time_check"; "sunrise_hour"; "sunset_hour";
           "low_light_threshold"; "low_temp_threshold"; "high_temp_threshold";
           "adapt_with_env_in_plain_day"]
  | None => []
  end.

(** The state after one more reading of the clock. *)
Definition tick (st : state) : state :=
  mkState (self st) (time_time st) (S (time_calls st)) (tm_hour st)
          (daylight st).

(** The automatic cycle: the last branch of [_update_shutters], taken when
    the mode is automatic and the period has passed. *)
Definition automatic_cycle (builtin_float : string -> option pyfloat)
    (builtin_str_float : pyfloat -> string) : exec state unit :=
  _log_fn "Automatically updating shutters" "core/shutters" "info";;
  '(temp, lum) ← _check_luminosity_and_temp builtin_float;
  _automatic_shutters builtin_str_float temp lum;;
  now ← time;
  setattr set__last_check now.

(** The configuration after [_cmd_set_settings]: the values that are not
    [None], entered in the order of the keyword arguments. *)
Definition updated (settings : namespace) (d : gmap string value)
  : gmap string value :=
  foldl (fun d '(name, val) =>
           if bool_decide (val = VNone) then d else <[name := val]> d)
        d settings.

(** The lines of the input file that hold a command, stripped. *)
Definition pending (strip : string -> string) (lines : list string)
  : list string :=
  filter (fun line => String.length (strip line) <> 0%nat) (strip <$> lines).

(** The warning of [get_cmd] when the queue is full. *)
Definition queue_warning (c : CentralUnitCommunicator.t) : string :=
  "maximum of " ++ str_int (CentralUnitCommunicator._max_cmd c)
  ++ " commands in " ++ "queue exceeded".

End Vocabulary.

(** * Properties *)

(** ** Text *)

Lemma length_app (a b : string) :
  String.length (a ++ b) = (String.length a + String.length b)%nat.
Proof. induction a as [|c a IH]; simpl; [reflexivity | now rewrite IH]. Qed.

Lemma substring_skip (a b : string) (n : nat) :
  substring (String.length a) n (a ++ b) = substring 0 n b.
Proof. induction a as [|c a IH]; simpl; [reflexivity | exact IH]. Qed.

Lemma substring_take (a b : string) :
  substring 0 (String.length a) (a ++ b) = a.
Proof.
  induction a as [|c a IH]; simpl.
  - now destruct b.
  - now rewrite IH.
Qed.

Lemma last2_CRLF (line : string) : last2 (line ++ CRLF) = CRLF.
Proof.
  unfold last2. rewrite length_app. simpl String.length.
  replace (String.length line + 2 - 2)%nat with (String.length line) by lia.
  now rewrite substring_skip.
Qed.

Lemma drop_last2_CRLF (line : string) : drop_last2 (line ++ CRLF) = line.
Proof.
  unfold drop_last2. rewrite length_app. simpl String.length.
  replace (String.length line + 2 - 2)%nat with (String.length line) by lia.
  apply substring_take.
Qed.

Lemma is_ascii_app (a b : string) :
  is_ascii (a ++ b) = is_ascii a && is_ascii b.
Proof.
  induction a as [|c a IH]; simpl; [reflexivity|].
  now rewrite IH, andb_assoc.
Qed.

Lemma non_empty_app_l (a b : string) :
  (String.length a =? 0)%nat = false ->
  (String.length (a ++ b) =? 0)%nat = false.
Proof. rewrite length_app. destruct a; simpl; [discriminate | reflexivity]. Qed.

Lemma non_empty_app_r (a b : string) :
  (String.length b =? 0)%nat = false ->
  (String.length (a ++ b) =? 0)%nat = false.
Proof.
  rewrite length_app, !Nat.eqb_neq. lia.
Qed.

Lemma split_not_nil (sep : ascii) (s : string) : split sep s <> [].
Proof.
  induction s as [|c s IH]; simpl; [discriminate|].
  destruct (Ascii.eqb c sep); [discriminate|].
  destruct (split sep s); [contradiction | discriminate].
Qed.

Lemma mangle_last_closed :
  mangle "CentralUnit" "__last_closed" = "_CentralUnit__last_closed"
  /\ mangle "CentralUnit" "_last_closed" = "_last_closed".
Proof. split; reflexivity. Qed.

(** ** Order on floats *)

Lemma float_lt_not_le (x y : pyfloat) :
  float_le y x = true -> float_lt x y = false.
Proof.
  destruct x as [a|[]|], y as [b|[]|]; simpl; try congruence.
  unfold Qlt_bool. now intros ->.
Qed.

(** ** Running a computation *)

Lemma bind_inr {S A B} (m : exec S A) (k : A -> exec S B) s a s' :
  m s = (inr a, s') -> (m ≫= k) s = k a s'.
Proof. unfold mbind, exec_bind, bind. now intros ->. Qed.

Lemma bind_inl {S A B} (m : exec S A) (k : A -> exec S B) s e s' :
  m s = (inl e, s') -> (m ≫= k) s = (inl e, s').
Proof. unfold mbind, exec_bind, bind. now intros ->. Qed.

Lemma bind_get {S B} (k : S -> exec S B) s : (get ≫= k) s = k s s.
Proof. reflexivity. Qed.

Lemma bind_ret {S A B} (a : A) (k : A -> exec S B) s : (ret a ≫= k) s = k a s.
Proof. reflexivity. Qed.

Lemma bind_raise {S A B} (e : exn) (k : A -> exec S B) s :
  (raise e ≫= k) s = (inl e, s).
Proof. reflexivity. Qed.

Lemma bind_modify {S B} (f : S -> S) (k : unit -> exec S B) s :
  (modify f ≫= k) s = k tt (f s).
Proof. reflexivity. Qed.

Ltac exec_unfold :=
  unfold mbind, exec_bind, mret, exec_ret, bind, get, put, modify, ret, raise,
    lift_sum.

(** ** The serial link *)

Module ArduinoSerialFacts.
Import ArduinoSerial.

Lemma send_ok msg le t rx tx lg :
  is_ascii (msg ++ le) = true ->
  send msg le (link t rx tx lg) = (inr tt, link t rx (tx ++ [(msg ++ le)%string])%list lg).
Proof.
  intros Hascii. unfold send, encode_ascii. rewrite Hascii. reflexivity.
Qed.

Lemma read_line_line line t rest tx lg :
  is_ascii line = true ->
  read_line no_timeout (link t ((line ++ CRLF) :: rest) tx lg)
  = (inr (Some line), link t rest tx lg).
Proof.
  intros Hascii.
  assert (Hraw : is_ascii (line ++ CRLF) = true)
    by (rewrite is_ascii_app, Hascii; reflexivity).
  unfold read_line, link, serial_read_until, decode_ascii. exec_unfold.
  change (negb (Qeq_bool no_timeout no_timeout)) with false.
  cbn -[last2 drop_last2 is_ascii CRLF String.eqb String.append].
  rewrite Hraw.
  cbn -[last2 drop_last2 is_ascii CRLF String.eqb String.append].
  rewrite last2_CRLF, drop_last2_CRLF, String.eqb_refl. reflexivity.
Qed.

Lemma read_line_silent t tx lg :
  read_line no_timeout (link t [] tx lg) = (inr None, link t [] tx lg).
Proof. reflexivity. Qed.

Lemma ask_line msg n le line t rest tx lg :
  is_ascii (msg ++ le) = true ->
  is_ascii line = true ->
  ask msg n le (link t ((line ++ CRLF) :: rest) tx lg)
  = (reply n line, link t rest (tx ++ [(msg ++ le)%string])%list lg).
Proof.
  intros Hmsg Hline. unfold ask.
  rewrite bind_get.
  change (negb (compatible_with_AS (link t ((line ++ CRLF) :: rest) tx lg)))
    with false. cbv iota.
  rewrite (bind_inr _ _ _ _ _ (send_ok _ _ _ _ _ _ Hmsg)).
  rewrite (bind_inr _ _ _ _ _ (read_line_line _ _ _ _ _ Hline)).
  unfold reply.
  destruct ((2 <=? Z.of_nat (length (split ";" line)))
            && String.eqb (nth 0 (split ";" line) EmptyString) "ERROR");
    [reflexivity|].
  destruct (Z.of_nat (length (split ";" line)) =? n); reflexivity.
Qed.

Lemma ask_silent msg n le t tx lg :
  is_ascii (msg ++ le) = true ->
  ask msg n le (link t [] tx lg)
  = (if 0 <? n
     then inl (TimeoutError "Arduino didn't return anything in time")
     else inr NoAnswer,
     link t [] (tx ++ [(msg ++ le)%string])%list lg).
Proof.
  intros Hmsg. unfold ask.
  rewrite bind_get.
  change (negb (compatible_with_AS (link t [] tx lg))) with false. cbv iota.
  rewrite (bind_inr _ _ _ _ _ (send_ok _ _ _ _ _ _ Hmsg)).
  rewrite (bind_inr _ _ _ _ _ (read_line_silent _ _ _)).
  destruct (0 <? n); reflexivity.
Qed.

(** Bytes that arrive without the terminator before the timeout count as no
    line at all. *)
Lemma read_line_unterminated partial t rest tx lg :
  is_ascii partial = true ->
  last2 partial <> CRLF ->
  read_line no_timeout (link t (partial :: rest) tx lg)
  = (inr None, link t rest tx lg).
Proof.
  intros Hascii Hlast. apply String.eqb_neq in Hlast.
  unfold read_line, link, serial_read_until, decode_ascii. exec_unfold.
  change (negb (Qeq_bool no_timeout no_timeout)) with false.
  cbn -[last2 drop_last2 is_ascii CRLF String.eqb String.append].
  rewrite Hascii.
  cbn -[last2 drop_last2 is_ascii CRLF String.eqb String.append].
  rewrite Hlast. reflexivity.
Qed.

Lemma ask_unterminated msg n le partial t rest tx lg :
  is_ascii (msg ++ le) = true ->
  is_ascii partial = true ->
  last2 partial <> CRLF ->
  fst (ask msg n le (link t (partial :: rest) tx lg))
  = if 0 <? n
    then inl (TimeoutError "Arduino didn't return anything in time")
    else inr NoAnswer.
Proof.
  intros Hmsg Hascii Hlast. unfold ask.
  rewrite bind_get.
  change (negb (compatible_with_AS (link t (partial :: rest) tx lg)))
    with false. cbv iota.
  rewrite (bind_inr _ _ _ _ _ (send_ok _ _ _ _ _ _ Hmsg)).
  rewrite (bind_inr _ _ _ _ _ (read_line_unterminated _ _ _ _ _ Hascii Hlast)).
  destruct (0 <? n); reflexivity.
Qed.

(** C4: with two fields expected, the line [21.5;430] is returned as the
    fields [21.5] and [430], the line [ERROR;sensor fault] raises the
    peer's error with the message [sensor fault], and silence until the
    timeout raises [TimeoutError]; with no field expected, silence raises
    nothing and [ask] returns [None].  The link follows the protocol
    ([compatible_with_AS]) and the message is 7-bit text. *)
Theorem ask_answers msg le t rest tx lg :
  is_ascii (msg ++ le) = true ->
  fst (ask msg 2 le (link t (("21.5;430" ++ CRLF) :: rest) tx lg))
    = inr (Fields ["21.5"; "430"])
  /\ fst (ask msg 2 le (link t (("ERROR;sensor fault" ++ CRLF) :: rest) tx lg))
    = inl (ConnectionError ("Arduino returned error : " ++ "sensor fault"))
  /\ fst (ask msg 2 le (link t [] tx lg))
    = inl (TimeoutError "Arduino didn't return anything in time")
  /\ fst (ask msg 0 le (link t [] tx lg)) = inr NoAnswer.
Proof.
  intros Hmsg. repeat split.
  - now rewrite ask_line.
  - now rewrite ask_line.
  - now rewrite ask_silent.
  - now rewrite ask_silent.
Qed.

Lemma ask_answers_witness :
  fst (ask "32" 2 "" (link 1 [("21.5;430" ++ CRLF)%string] [] []))
    = inr (Fields ["21.5"; "430"])
  /\ fst (ask "32" 2 "" (link 1 [("ERROR;sensor fault" ++ CRLF)%string] [] []))
    = inl (ConnectionError "Arduino returned error : sensor fault")
  /\ fst (ask "32" 2 "" (link 1 [] [] []))
    = inl (TimeoutError "Arduino didn't return anything in time")
  /\ fst (ask "32" 0 "" (link 1 [] [] [])) = inr NoAnswer.
Proof. apply (ask_answers "32" "" 1 [] [] []). reflexivity. Defined.

(** C10: on a link built with [programmed_for_as=False], [ask] writes
    nothing (the link is left as it was) and hands back a
    [NotImplementedError] object as its result; nothing is raised. *)
Theorem ask_not_programmed msg n le (a : ArduinoSerial.t) :
  compatible_with_AS a = false ->
  ask msg n le a
  = (inr (ExceptionObject
            (NotImplementedError
               "Arduino isn't compatible with AS's special methods.")), a).
Proof. intros H. unfold ask. rewrite bind_get, H. reflexivity. Qed.

Lemma init_not_programmed port :
  __init__ false port = (inr tt, mk port false []).
Proof. reflexivity. Qed.

Lemma ask_not_programmed_witness :
  let a := snd (__init__ false (mkSerial 1 ["CONNECT" ++ CRLF] ["x"])) in
  compatible_with_AS a = false
  /\ ask "16" 0 "" a
     = (inr (ExceptionObject
               (NotImplementedError
                  "Arduino isn't compatible with AS's special methods.")), a)
  /\ tx (serial a) = ["x"].
Proof.
  split; [reflexivity|]. split; [|reflexivity].
  apply (ask_not_programmed "16" 0 ""). reflexivity.
Defined.

End ArduinoSerialFacts.

(** ** The central unit *)

Module CentralUnitFacts.
Import CentralUnit ArduinoSerialFacts.

Lemma config_of_sunrise c :
  config_of c !! "sunrise_hour" = Some (VInt (sunrise_hour c)).
Proof. reflexivity. Qed.

Lemma config_of_adapt c :
  config_of c !! "adapt_with_env_in_plain_day" = Some (VBool (adapt_with_env_in_plain_day c)).
Proof. reflexivity. Qed.

Lemma config_read (st : state) d key v :
  _CentralUnit__config (self st) = Some d ->
  d !! key = Some v ->
  config key st = (inr v, st).
Proof.
  intros Hd Hv. unfold config, getattr, subscript. exec_unfold.
  rewrite Hd, Hv. reflexivity.
Qed.

Lemma getattr_some {A} (slot : t -> option A) name (st : state) v :
  slot (self st) = Some v -> getattr slot name st = (inr v, st).
Proof. intros H. unfold getattr. now rewrite H. Qed.

Lemma config_of_sunset c :
  config_of c !! "sunset_hour" = Some (VInt (sunset_hour c)).
Proof. reflexivity. Qed.

Lemma config_of_low_light c :
  config_of c !! "low_light_threshold" = Some (VInt (low_light_threshold c)).
Proof. reflexivity. Qed.

Lemma config_of_low_temp c :
  config_of c !! "low_temp_threshold" = Some (VInt (low_temp_threshold c)).
Proof. reflexivity. Qed.

Lemma config_of_high_temp c :
  config_of c !! "high_temp_threshold" = Some (VInt (high_temp_threshold c)).
Proof. reflexivity. Qed.

Lemma config_of_user_mode c :
  config_of c !! "user_mode" = Some (VInt (user_mode c)).
Proof. reflexivity. Qed.

Lemma config_of_time_check c :
  config_of c !! "time_check" = Some (VInt (time_check c)).
Proof. reflexivity. Qed.

Ltac config_lookups :=
  rewrite ?config_of_sunrise, ?config_of_sunset, ?config_of_low_light,
    ?config_of_low_temp, ?config_of_high_temp, ?config_of_adapt,
    ?config_of_user_mode, ?config_of_time_check.

Lemma log_ok msg source log_type (comm : CentralUnitCommunicator.t) :
  (String.length msg =? 0)%nat = false ->
  (String.length source =? 0)%nat = false ->
  (String.length log_type =? 0)%nat = false ->
  fst (CentralUnitCommunicator.log msg source log_type comm) = inr tt.
Proof.
  intros Hm Hs Ht. unfold CentralUnitCommunicator.log. rewrite Hm, Hs, Ht.
  cbn [orb]. rewrite bind_get. now destruct (bool_decide _).
Qed.

Ltac exec_run rw :=
  repeat first
    [ progress (cbn beta iota delta [andb orb negb fst snd as_int eq_int])
    | progress rw
    | match goal with
      | |- context [ if ?b then _ else _ ] => destruct b eqn:?
      end ].

Ltac obj_cbn :=
  cbn beta iota zeta delta
    [andb orb negb fst snd as_int eq_int truthy
     self time_time time_calls tm_hour daylight on_self
     _CentralUnit__loop _CentralUnit__last_closed _CentralUnit__shutters_state
     _CentralUnit__argparser _CentralUnit__config _CentralUnit__last_check
     _last_closed arduino _Communicator
     set__loop set__last_closed set__shutters_state set__argparser set__config
     set__last_check set_last_closed set_arduino set_Communicator].

Ltac obj_run rw :=
  repeat first
    [ progress obj_cbn
    | progress rw
    | match goal with
      | |- context [ CentralUnitCommunicator.log ?m ?s ?t ?c ] =>
          let H := fresh "Hlog" in
          pose proof (log_ok m s t c eq_refl eq_refl eq_refl) as H;
          destruct (CentralUnitCommunicator.log m s t c) as [? ?];
          cbn [fst] in H; subst
      | |- context [ ArduinoSerial.ask ?m ?n ?le ?a ] =>
          destruct (ArduinoSerial.ask m n le a) as [[?|?] ?] eqn:?
      | |- context [ if negb ?b then _ else _ ] => destruct b eqn:?
      | |- context [ if ?b then _ else _ ] => destruct b eqn:?
      end ].

Ltac methods_unfold :=
  unfold _close_shutters_if_opened, _open_shutters_if_closed, _log_fn,
    arduino_ask, on_attr, getattr, setattr, time;
  exec_unfold.

Section Decision.
Context (builtin_str_float : pyfloat -> string).

(** C5: at the sunrise hour [_get_day_time] answers [PLAIN_NIGHT] exactly
    when the luminosity is at most the low-light threshold and the recorded
    shutter state is [SHUTTERS_CLOSED], and [PLAIN_DAY] in every other case;
    the state is left as it was.  The sunrise hour is not after the sunset
    hour, as in every configuration the validators of [set_settings] admit
    (sunrise 0..9, sunset 14..22). *)
Theorem get_day_time_sunrise (c : settings) (st : state) (lum : pyfloat) (s : Z) :
  _CentralUnit__config (self st) = Some (config_of c) ->
  _CentralUnit__shutters_state (self st) = Some s ->
  sunrise_hour c <= sunset_hour c ->
  _get_day_time (sunrise_hour c) lum st
  = (inr (Some (if float_le lum (of_int (low_light_threshold c))
                   && (s =? SHUTTERS_CLOSED)
                then PLAIN_NIGHT else PLAIN_DAY)), st).
Proof.
  intros Hc Hs Hle.
  unfold _get_day_time, or_else, and_then, config, getattr, subscript, int_of.
  exec_unfold.
  exec_run ltac:(rewrite ?Hc, ?Hs, ?config_of_sunrise, ?config_of_sunset,
      ?config_of_low_light, ?(proj2 (Z.ltb_ge _ _) Hle), ?Z.ltb_irrefl,
      ?Z.eqb_refl); reflexivity.
Qed.

Lemma up_to_refl st : up_to_log_and_clock st st.
Proof. unfold up_to_log_and_clock; auto. Qed.

Lemma up_to_trans st st1 st2 :
  up_to_log_and_clock st st1 -> up_to_log_and_clock st1 st2 ->
  up_to_log_and_clock st st2.
Proof. unfold up_to_log_and_clock; intuition congruence. Qed.

Lemma get_day_time_total (c : settings) (st : state) (hour : Z) (lum : pyfloat) :
  _CentralUnit__config (self st) = Some (config_of c) ->
  is_Some (_CentralUnit__shutters_state (self st)) ->
  exists day_moment,
    (day_moment = PLAIN_DAY \/ day_moment = PLAIN_NIGHT)
    /\ _get_day_time hour lum st = (inr (Some day_moment), st).
Proof.
  intros Hc [s Hs].
  unfold _get_day_time, or_else, and_then, config, getattr, subscript, int_of.
  exec_unfold.
  exec_run ltac:(rewrite ?Hc, ?Hs; config_lookups); eauto.
  all: exfalso; repeat match goal with
    | H : (_ <? _) = _ |- _ => first [apply Z.ltb_lt in H | apply Z.ltb_ge in H]
    | H : (_ =? _) = false |- _ => apply Z.eqb_neq in H
    end; lia.
Qed.

Lemma log_fn_ok (st : state) comm msg source log_type :
  _Communicator (self st) = Some comm ->
  (String.length msg =? 0)%nat = false ->
  (String.length source =? 0)%nat = false ->
  (String.length log_type =? 0)%nat = false ->
  exists st1, after_logging st st1
    /\ _log_fn msg source log_type st = (inr tt, st1).
Proof.
  intros Hcomm Hm Hs Ht.
  unfold _log_fn, on_attr, getattr. exec_unfold. rewrite Hcomm.
  pose proof (log_ok msg source log_type comm Hm Hs Ht) as Hlog.
  destruct (CentralUnitCommunicator.log msg source log_type comm) as [r comm'].
  cbn in Hlog. subst r. eexists. split; [|reflexivity].
  unfold after_logging, up_to_log_and_clock.
  destruct st as [o ? ? ? ?], o. cbn. eauto 10.
Qed.

Lemma Qlt_bool_true (x y : Q) : (x < y)%Q -> Qlt_bool x y = true.
Proof.
  intros H. unfold Qlt_bool. destruct (Qle_bool y x) eqn:E; [|reflexivity].
  apply Qle_bool_iff in E. exfalso. exact (Qlt_not_le _ _ H E).
Qed.

Lemma up_to_clock (st : state) (n : nat) :
  up_to_log_and_clock st
    (mkState (self st) (time_time st) n (tm_hour st) (daylight st)).
Proof. unfold up_to_log_and_clock; cbn; auto. Qed.

Lemma must_close_hysteresis (c : settings) (st : state) day_moment hour temp lum
    (last_closed : Q) :
  _CentralUnit__config (self st) = Some (config_of c) ->
  _last_closed (self st) = Some last_closed ->
  (time_time st (time_calls st) - inject_Z 3600 < last_closed)%Q ->
  fst (must_close day_moment hour temp lum st) = inr true
  /\ up_to_log_and_clock st (snd (must_close day_moment hour temp lum st)).
Proof.
  intros Hc Hl Hlt.
  unfold must_close, or_else, and_then, config, getattr, subscript, int_of,
    time_daylight, time.
  exec_unfold.
  exec_run ltac:(rewrite ?Hc, ?Hl, ?(Qlt_bool_true _ _ Hlt); config_lookups);
    (split; [reflexivity | first [apply up_to_refl | apply up_to_clock]]).
Qed.

Lemma must_close_hot (c : settings) (st : state) day_moment hour temp lum :
  _CentralUnit__config (self st) = Some (config_of c) ->
  adapt_with_env_in_plain_day c = true ->
  float_lt (of_int (high_temp_threshold c)) temp = true ->
  Z.abs (hour - (13 + daylight st)) <= 4 ->
  must_close day_moment hour temp lum st = (inr true, st).
Proof.
  intros Hc Ha Hhot Hnoon. apply Z.leb_le in Hnoon.
  unfold must_close, or_else, and_then, config, getattr, subscript, int_of,
    time_daylight, time.
  exec_unfold.
  exec_run ltac:(rewrite ?Hc, ?Ha, ?Hhot, ?Hnoon; config_lookups;
                 cbn [truthy]); reflexivity.
Qed.


Lemma close_returns_closed (st : state) :
  fst (_close_shutters_if_opened st) = inr tt ->
  _CentralUnit__shutters_state (self (snd (_close_shutters_if_opened st)))
  = Some SHUTTERS_CLOSED.
Proof.
  methods_unfold.
  destruct st as [o tt tc h d], o as [lp lcl [s|] ap cf lck lc [a|] [cm|]];
    obj_run idtac; try discriminate; try reflexivity.
  all: intros _; apply Z.eqb_eq in Heqb; now subst.
Qed.

Lemma close_raises_unchanged (st : state) :
  fst (_close_shutters_if_opened st) <> inr tt ->
  shutter_fields (snd (_close_shutters_if_opened st)) = shutter_fields st.
Proof.
  methods_unfold.
  destruct st as [o tt tc h d], o as [lp lcl [s|] ap cf lck lc [a|] [cm|]];
    obj_run idtac; try reflexivity; try (intros H; now elim H).
Qed.

Lemma open_raises_unchanged (st : state) :
  fst (_open_shutters_if_closed st) <> inr tt ->
  shutter_fields (snd (_open_shutters_if_closed st)) = shutter_fields st.
Proof.
  methods_unfold.
  destruct st as [o tt tc h d], o as [lp lcl [s|] ap cf lck lc [a|] [cm|]];
    obj_run idtac; try reflexivity; try (intros H; now elim H).
Qed.

Lemma debug_line_not_empty (a b c d : string) :
  (String.length (a ++ "Â°C, " ++ b ++ "lux, " ++ c ++ "th hour, " ++ d) =? 0)%nat
  = false.
Proof. apply non_empty_app_r, non_empty_app_l. reflexivity. Qed.

Lemma up_to_config st st1 :
  up_to_log_and_clock st st1 ->
  _CentralUnit__config (self st1) = _CentralUnit__config (self st).
Proof.
  intros [H _]. apply (f_equal _CentralUnit__config) in H. exact H.
Qed.

Lemma up_to_last_closed st st1 :
  up_to_log_and_clock st st1 -> _last_closed (self st1) = _last_closed (self st).
Proof. intros [H _]. apply (f_equal _last_closed) in H. exact H. Qed.

Lemma up_to_shutters st st1 :
  up_to_log_and_clock st st1 ->
  _CentralUnit__shutters_state (self st1)
  = _CentralUnit__shutters_state (self st).
Proof.
  intros [H _]. apply (f_equal _CentralUnit__shutters_state) in H. exact H.
Qed.

Lemma up_to_arduino st st1 :
  up_to_log_and_clock st st1 -> arduino (self st1) = arduino (self st).
Proof. intros [H _]. apply (f_equal arduino) in H. exact H. Qed.

(** The start of [_automatic_shutters]: the hour is read, the moment of the
    day is classified and the debug line is logged; then the test decides. *)
Lemma automatic_shutters_prefix (c : settings) (st : state) temp lum :
  _CentralUnit__config (self st) = Some (config_of c) ->
  is_Some (_CentralUnit__shutters_state (self st)) ->
  is_Some (_Communicator (self st)) ->
  exists day_moment st1,
    _get_day_time (tm_hour st) lum st = (inr (Some day_moment), st)
    /\ after_logging st st1
    /\ _automatic_shutters builtin_str_float temp lum st
       = (close ← must_close (Some day_moment) (tm_hour st) temp lum;
          if (close : bool) then _close_shutters_if_opened
          else _open_shutters_if_closed) st1.
Proof.
  intros Hc Hs [comm Hcomm].
  destruct (get_day_time_total c st (tm_hour st) lum Hc Hs)
    as (day_moment & _ & Hday).
  unfold _automatic_shutters.
  rewrite (bind_inr _ _ _ _ _
             (eq_refl : localtime_tm_hour st = (inr (tm_hour st), st))).
  rewrite (bind_inr _ _ _ _ _ Hday).
  match goal with
  | |- context [ _log_fn ?m ?s ?t ] =>
      destruct (log_fn_ok st comm m s t Hcomm (debug_line_not_empty _ _ _ _)
                  eq_refl eq_refl) as (st1 & Hst1 & Hlog)
  end.
  exists day_moment, st1. split; [exact Hday|]. split; [exact Hst1|].
  rewrite (bind_inr _ _ _ _ _ Hlog). reflexivity.
Qed.

(** C1: when the time of the last closing read by the test ([_last_closed])
    is less than 3600 seconds before the current time, [_automatic_shutters]
    takes the close branch, whatever the settings, the hour, the temperature,
    the luminosity and the recorded shutter state: the call is
    [_close_shutters_if_opened] run on the state reached after the debug line
    and the clock reading, and whenever it returns the recorded state is
    [SHUTTERS_CLOSED]. *)
Theorem hysteresis_closes (c : settings) (st : state) (temp lum : pyfloat)
    (last_closed : Q) :
  _CentralUnit__config (self st) = Some (config_of c) ->
  is_Some (_CentralUnit__shutters_state (self st)) ->
  is_Some (_Communicator (self st)) ->
  _last_closed (self st) = Some last_closed ->
  (time_time st (time_calls st) - inject_Z 3600 < last_closed)%Q ->
  let run := _automatic_shutters builtin_str_float temp lum st in
  (exists st1, up_to_log_and_clock st st1
               /\ run = _close_shutters_if_opened st1)
  /\ (fst run = inr tt ->
      _CentralUnit__shutters_state (self (snd run)) = Some SHUTTERS_CLOSED).
Proof.
  intros Hc Hs Hcomm Hl Hlt run.
  assert (Hbranch : exists st1,
             up_to_log_and_clock st st1
             /\ run = _close_shutters_if_opened st1).
  { destruct (automatic_shutters_prefix c st temp lum Hc Hs Hcomm)
      as (day_moment & st1 & _ & [Hst1 Hcalls] & Hrun).
    destruct (must_close_hysteresis c st1 (Some day_moment) (tm_hour st)
                temp lum last_closed) as [Htrue Hst2].
    - now rewrite (up_to_config _ _ Hst1).
    - now rewrite (up_to_last_closed _ _ Hst1).
    - destruct Hst1 as (_ & _ & -> & _). now rewrite Hcalls.
    - exists (snd (must_close (Some day_moment) (tm_hour st) temp lum st1)).
      split; [exact (up_to_trans _ _ _ Hst1 Hst2)|].
      subst run. rewrite Hrun.
      assert (Hmust : must_close (Some day_moment) (tm_hour st) temp lum st1
                = (inr true,
                   snd (must_close (Some day_moment) (tm_hour st) temp lum st1)))
        by (rewrite <- Htrue; apply surjective_pairing).
      now rewrite (bind_inr _ _ _ _ _ Hmust). }
  split; [exact Hbranch|].
  destruct Hbranch as (st1 & _ & ->). apply close_returns_closed.
Qed.

(** C6: in plain day, with the adaptation to the environment enabled, a
    temperature above the high threshold and an hour within 4 hours of
    13 + [time.daylight], [_automatic_shutters] takes the close branch; the
    time of the last closing is not even read.  Its witness is the scenario
    sunrise 7, sunset 19, low light 100, low temperature 0, high temperature
    30, adaptation on, hour 12, 35 degrees, 500 lux, shutters open. *)
Theorem hot_midday_closes (c : settings) (st : state) (temp lum : pyfloat) :
  _CentralUnit__config (self st) = Some (config_of c) ->
  is_Some (_CentralUnit__shutters_state (self st)) ->
  is_Some (_Communicator (self st)) ->
  fst (_get_day_time (tm_hour st) lum st) = inr (Some PLAIN_DAY) ->
  adapt_with_env_in_plain_day c = true ->
  float_lt (of_int (high_temp_threshold c)) temp = true ->
  Z.abs (tm_hour st - (13 + daylight st)) <= 4 ->
  let run := _automatic_shutters builtin_str_float temp lum st in
  (exists st1, up_to_log_and_clock st st1
               /\ run = _close_shutters_if_opened st1)
  /\ (fst run = inr tt ->
      _CentralUnit__shutters_state (self (snd run)) = Some SHUTTERS_CLOSED).
Proof.
  intros Hc Hs Hcomm _ Ha Hhot Hnoon run.
  assert (Hbranch : exists st1,
             up_to_log_and_clock st st1
             /\ run = _close_shutters_if_opened st1).
  { destruct (automatic_shutters_prefix c st temp lum Hc Hs Hcomm)
      as (day_moment & st1 & _ & [Hst1 Hcalls] & Hrun).
    exists st1. split; [exact Hst1|]. subst run. rewrite Hrun.
    assert (Hmust : must_close (Some day_moment) (tm_hour st) temp lum st1
              = (inr true, st1)).
    { apply (must_close_hot c); auto.
      - now rewrite (up_to_config _ _ Hst1).
      - destruct Hst1 as (_ & _ & _ & _ & ->). exact Hnoon. }
    now rewrite (bind_inr _ _ _ _ _ Hmust). }
  split; [exact Hbranch|].
  destruct Hbranch as (st1 & _ & ->). apply close_returns_closed.
Qed.
End Decision.

Lemma close_silent (st : state) s comm t tx lg :
  _CentralUnit__shutters_state (self st) = Some s ->
  _Communicator (self st) = Some comm ->
  arduino (self st) = Some (link t [] tx lg) ->
  s <> SHUTTERS_CLOSED ->
  fst (_close_shutters_if_opened st) = inr tt
  /\ shutter_fields (snd (_close_shutters_if_opened st))
     = (Some SHUTTERS_CLOSED, Some (time_time st (time_calls st))).
Proof.
  intros Hs Hc Ha Hne. apply Z.eqb_neq in Hne.
  methods_unfold.
  destruct st as [o tt tc h d], o as [lp lcl s' ap cf lck lc a cm].
  cbn in Hs, Hc, Ha. subst s' cm a.
  obj_run ltac:(rewrite ?Hne, ?ask_silent by reflexivity);
    first [discriminate | split; reflexivity].
Qed.

Lemma open_silent (st : state) s comm t tx lg :
  _CentralUnit__shutters_state (self st) = Some s ->
  _Communicator (self st) = Some comm ->
  arduino (self st) = Some (link t [] tx lg) ->
  s <> SHUTTERS_OPENED ->
  fst (_open_shutters_if_closed st) = inr tt
  /\ shutter_fields (snd (_open_shutters_if_closed st))
     = (Some SHUTTERS_OPENED, _last_closed (self st)).
Proof.
  intros Hs Hc Ha Hne. apply Z.eqb_neq in Hne.
  methods_unfold.
  destruct st as [o tt tc h d], o as [lp lcl s' ap cf lck lc a cm].
  cbn in Hs, Hc, Ha. subst s' cm a.
  obj_run ltac:(rewrite ?Hne, ?ask_silent by reflexivity);
    first [discriminate | split; reflexivity].
Qed.

(** C3, as stated, fails: with the shutters open and a peer that sends
    nothing before the timeout, the close actuation returns normally and
    both the recorded state and the time of the last closing are changed. *)
Lemma silent_close_updates :
  let st := started default_settings [] 12 in
  ArduinoSerial.rx (ArduinoSerial.serial (link 1 [] [] [])) = []
  /\ shutter_fields st = (Some SHUTTERS_OPENED, None)
  /\ shutter_fields (snd (_close_shutters_if_opened st))
     = (Some SHUTTERS_CLOSED, Some 1700000000%Q)
  /\ shutter_fields (snd (_close_shutters_if_opened st)) <> shutter_fields st.
Proof. vm_compute. repeat split; discriminate. Qed.

(** C3, amended: the recorded shutter state and the time of the last closing
    change only when [ask] returns without raising.  An open or close
    actuation that raises leaves both as they were; when the peer sends
    nothing before the timeout, [ask] (no field expected) returns, and the
    actuation records its target state and, on close, the current time. *)
Theorem state_follows_ask (st : state) :
  (fst (_close_shutters_if_opened st) <> inr tt ->
   shutter_fields (snd (_close_shutters_if_opened st)) = shutter_fields st)
  /\ (fst (_open_shutters_if_closed st) <> inr tt ->
      shutter_fields (snd (_open_shutters_if_closed st)) = shutter_fields st)
  /\ (forall s comm t tx lg,
        _CentralUnit__shutters_state (self st) = Some s ->
        _Communicator (self st) = Some comm ->
        arduino (self st) = Some (link t [] tx lg) ->
        (s <> SHUTTERS_CLOSED ->
         fst (_close_shutters_if_opened st) = inr tt
         /\ shutter_fields (snd (_close_shutters_if_opened st))
            = (Some SHUTTERS_CLOSED, Some (time_time st (time_calls st))))
        /\ (s <> SHUTTERS_OPENED ->
            fst (_open_shutters_if_closed st) = inr tt
            /\ shutter_fields (snd (_open_shutters_if_closed st))
               = (Some SHUTTERS_OPENED, _last_closed (self st)))).
Proof.
  split; [apply close_raises_unchanged|].
  split; [apply open_raises_unchanged|].
  intros s comm t tx lg Hs Hc Ha. split; intros Hne.
  - exact (close_silent st s comm t tx lg Hs Hc Ha Hne).
  - exact (open_silent st s comm t tx lg Hs Hc Ha Hne).
Qed.

Lemma state_follows_ask_witness :
  let answered := started default_settings [("OK" ++ CRLF)%string] 12 in
  let silent := started default_settings [] 12 in
  (fst (_close_shutters_if_opened answered)
     = inl (ValueError "Invalid value received from arduino: OK")
   /\ shutter_fields (snd (_close_shutters_if_opened answered))
      = shutter_fields answered)
  /\ (fst (_close_shutters_if_opened silent) = inr tt
      /\ shutter_fields (snd (_close_shutters_if_opened silent))
         = (Some SHUTTERS_CLOSED, Some 1700000000%Q)).
Proof.
  intros answered silent. split.
  - split; [reflexivity|].
    apply (proj1 (state_follows_ask answered)). discriminate.
  - apply (proj1 (proj2 (proj2 (state_follows_ask silent))
                    SHUTTERS_OPENED communicator0 1%Q [] []
                    eq_refl eq_refl eq_refl)).
    discriminate.
Defined.

Section Reading.
Context (builtin_float : string -> option pyfloat).

(** C8: for a two-field answer to the environment query whose fields read
    as floats, with a luminosity that is not negative,
    [_check_luminosity_and_temp] raises [ValueError] exactly when the
    temperature lies in [-40, 60], and returns the pair otherwise. *)
Theorem temperature_check_inverted (st : state) line f0 f1 temp lum
    t rest tx lg :
  arduino (self st) = Some (link t ((line ++ CRLF) :: rest) tx lg) ->
  is_ascii line = true ->
  split ";" line = [f0; f1] ->
  f0 <> "ERROR" ->
  builtin_float f0 = Some temp ->
  builtin_float f1 = Some lum ->
  float_le (of_int 0) lum = true ->
  fst (_check_luminosity_and_temp builtin_float st)
  = if float_le (of_int (-40)) temp && float_le temp (of_int 60)
    then inl (ValueError "Arduino returned an invalid temperature.")
    else inr (temp, lum).
Proof.
  intros Ha Hline Hsplit Herr Htemp Hlum Hpos.
  apply String.eqb_neq in Herr.
  pose proof (float_lt_not_le _ _ Hpos) as Hlt.
  unfold _check_luminosity_and_temp, arduino_ask, on_attr, getattr, item, float_.
  exec_unfold. rewrite Ha.
  rewrite ask_line by (reflexivity || exact Hline).
  unfold reply. rewrite Hsplit. cbn [length nth Z.of_nat]. rewrite Herr.
  change ((2 <=? Z.of_nat 2) && false) with false.
  change (Z.of_nat 2 =? 2) with true.
  cbn beta iota.
  change ([f0; f1] !! 0%nat) with (Some f0).
  change ([f0; f1] !! 1%nat) with (Some f1).
  cbn beta iota. rewrite Htemp. cbn beta iota.
  destruct (float_le (of_int (-40)) temp && float_le temp (of_int 60));
    [reflexivity|].
  cbn beta iota. rewrite Hlum. cbn beta iota. rewrite Hlt. reflexivity.
Qed.
End Reading.

Lemma temperature_check_inverted_witness :
  let inside := started default_settings [("21.5;430" ++ CRLF)%string] 12 in
  let outside := started default_settings [("61.5;430" ++ CRLF)%string] 12 in
  fst (_check_luminosity_and_temp Literal.float inside)
    = inl (ValueError "Arduino returned an invalid temperature.")
  /\ fst (_check_luminosity_and_temp Literal.float outside)
    = inr (FNum 61.5, FNum 430).
Proof.
  intros inside outside. split.
  - apply (temperature_check_inverted Literal.float inside "21.5;430"
             "21.5" "430" (FNum 21.5) (FNum 430) 1 [] [] []);
      first [reflexivity | discriminate].
  - apply (temperature_check_inverted Literal.float outside "61.5;430"
             "61.5" "430" (FNum 61.5) (FNum 430) 1 [] [] []);
      first [reflexivity | discriminate].
Defined.


Section FirstCycle.
Context (builtin_int : string -> option Z)
        (builtin_str_float : pyfloat -> string).

Lemma init_attributes_last_closed (st : state) :
  let st' := snd (_init_attributes builtin_int st) in
  fst (_init_attributes builtin_int st) = inl (KeyError "set_setting")
  /\ _CentralUnit__last_closed (self st') = Some 0
  /\ _last_closed (self st') = _last_closed (self st).
Proof. destruct st as [o tt tc h d], o. repeat split. Qed.

Lemma must_close_unset (c : settings) (st : state) hour temp lum :
  _CentralUnit__config (self st) = Some (config_of c) ->
  _last_closed (self st) = None ->
  adapt_with_env_in_plain_day c
  && ((float_lt temp (of_int (low_temp_threshold c))
       && float_lt lum (of_int (low_light_threshold c)))
      || (float_lt (of_int (high_temp_threshold c)) temp
          && (Z.abs (hour - (13 + daylight st)) <=? 4))) = false ->
  must_close (Some PLAIN_DAY) hour temp lum st
  = (inl (AttributeError "_last_closed"), st).
Proof.
  intros Hc Hl Hno. revert Hno.
  unfold must_close, or_else, and_then, config, getattr, subscript, int_of,
    time_daylight, time.
  exec_unfold.
  exec_run ltac:(rewrite ?Hc, ?Hl; config_lookups; cbn [truthy]);
    intros; first [reflexivity | discriminate].
Qed.

(** C9 fails on the code: start-up assigns [self.__last_closed], that is
    the attribute [_CentralUnit__last_closed], while the hysteresis test
    reads [self._last_closed], which only a closing assigns.  As long as no
    closing has happened, a cycle in plain day in which the environment does
    not ask for closing raises [AttributeError]. *)
Theorem hysteresis_reads_unset_attribute (c : settings) (st : state)
    (temp lum : pyfloat) :
  _CentralUnit__config (self st) = Some (config_of c) ->
  is_Some (_CentralUnit__shutters_state (self st)) ->
  is_Some (_Communicator (self st)) ->
  _last_closed (self st) = None ->
  fst (_get_day_time (tm_hour st) lum st) = inr (Some PLAIN_DAY) ->
  adapt_with_env_in_plain_day c
  && ((float_lt temp (of_int (low_temp_threshold c))
       && float_lt lum (of_int (low_light_threshold c)))
      || (float_lt (of_int (high_temp_threshold c)) temp
          && (Z.abs (tm_hour st - (13 + daylight st)) <=? 4))) = false ->
  fst (_automatic_shutters builtin_str_float temp lum st)
  = inl (AttributeError "_last_closed").
Proof.
  intros Hc Hs Hcomm Hl Hday Hno.
  destruct (automatic_shutters_prefix builtin_str_float c st temp lum Hc Hs Hcomm)
    as (day_moment & st1 & Hdm & [Hst1 Hcalls] & Hrun).
  rewrite Hdm in Hday. cbn in Hday. injection Hday as ->.
  rewrite Hrun.
  rewrite (bind_inl _ _ _ _ _ (must_close_unset c st1 _ temp lum
             ltac:(now rewrite (up_to_config _ _ Hst1))
             ltac:(now rewrite (up_to_last_closed _ _ Hst1))
             ltac:(destruct Hst1 as (_ & _ & _ & _ & ->); exact Hno))).
  reflexivity.
Qed.

End FirstCycle.

Lemma hysteresis_reads_unset_attribute_witness :
  let st := started default_settings [] 12 in
  _CentralUnit__last_closed (self st) = Some 0
  /\ _last_closed (self st) = None
  /\ fst (_automatic_shutters Literal.str_float (FNum 20) (FNum 500) st)
     = inl (AttributeError "_last_closed").
Proof.
  intros st. split; [reflexivity|]. split; [reflexivity|].
  apply (hysteresis_reads_unset_attribute Literal.str_float default_settings);
    first [reflexivity | eexists; reflexivity].
Defined.

(** [_proper_exit] ends the process with the given status. *)
Lemma proper_exit_status (st : state) comm (code : Z) (e : exn) :
  _Communicator (self st) = Some comm ->
  fst (_proper_exit code (Some e) st) = inl (SystemExit code).
Proof.
  intros Hcomm. unfold _proper_exit.
  match goal with
  | |- context [ _log_fn ?m ?s ?t ] =>
      destruct (log_fn_ok st comm m s t Hcomm
                  (non_empty_app_r (str_exn e) NEWLINE eq_refl) eq_refl eq_refl)
        as (st1 & [Hst1 _] & Hlog)
  end.
  rewrite (bind_inr _ _ _ _ _ Hlog).
  destruct (proj1 (proj2 Hst1) (ex_intro _ comm Hcomm)) as [comm1 Hcomm1].
  destruct (log_fn_ok st1 comm1 "shutting down" "core" "status" Hcomm1
              eq_refl eq_refl eq_refl) as (st2 & [Hst2 _] & Hlog2).
  rewrite (bind_inr _ _ _ _ _ Hlog2).
  unfold try_except, delattr, getattr. exec_unfold.
  destruct (proj1 (proj2 Hst2) (ex_intro _ comm1 Hcomm1)) as [comm2 Hcomm2].
  rewrite Hcomm2.
  destruct st2 as [o tt tc h d], o as [lp lcl s ap cf lck lc [a|] cm];
    reflexivity.
Qed.

Section StartUp.
Context (builtin_int : string -> option Z).

(** C2 fails on the code: [CentralUnitCommunicatorFile] defines [get_cmd],
    so the abstract [get_cmds] is left without an implementation and the
    constructor call with the suffix [File] ends in an unhandled [TypeError];
    and [_init_commands] looks up the key [set_setting] in a table whose key
    is [set_settings], so [_init_attributes] raises [KeyError]. *)
Theorem start_up_fails (initialisation_command : string)
    (communicator_args : option CentralUnitCommunicator.kwargs)
    (port : ArduinoSerial.Serial) (st : state) :
  "get_cmds" ∈ CentralUnitCommunicator.abstractmethods
                 CentralUnitCommunicator.CentralUnitCommunicatorFile
  /\ fst (__init__ builtin_int initialisation_command "File"
            communicator_args port st)
     = inl (TypeError
              "Can't instantiate abstract class CentralUnitCommunicatorFile")
  /\ fst (_init_commands builtin_int
            (on_self (set__argparser (Some (mkParser []))) st))
     = inl (KeyError "set_setting")
  /\ fst (_init_attributes builtin_int st) = inl (KeyError "set_setting").
Proof.
  split; [vm_compute; set_solver|].
  split; [reflexivity|].
  split; destruct st as [o tt tc h d], o; reflexivity.
Qed.

End StartUp.

(** Whatever the parser, once it has accepted a [get_setting] command the
    dispatch by name fails. *)
Lemma get_setting_dispatch (st : state) (cmd : string) p sanitized_output comm :
  _CentralUnit__argparser (self st) = Some p ->
  _Communicator (self st) = Some comm ->
  parse_args p (split " " cmd) = inr sanitized_output ->
  assoc "command" sanitized_output = Some (VStr "get_setting") ->
  fst (parse_command cmd st) = inl (AttributeError "_cmd_get_setting").
Proof.
  intros Hp Hcomm Hparse Hcommand. unfold parse_command.
  rewrite (bind_inr _ _ _ _ _ (getattr_some _ _ _ _ Hp)).
  rewrite Hparse, Hcommand.
  match goal with
  | |- context [ _log_fn ?m ?s ?t ] =>
      destruct (log_fn_ok st comm m s t Hcomm
                  (non_empty_app_l "running function " _ eq_refl) eq_refl eq_refl)
        as (st1 & _ & Hlog)
  end.
  rewrite (bind_inr _ _ _ _ _ Hlog). reflexivity.
Qed.

(** C7 fails on the code.  On the grammar that the declarations describe,
    [set_settings --sunrise_hour 8] does set that field and no other, but
    [get_setting sunrise_hour] reports nothing: the method is looked up as
    [_cmd_get_setting], the class names it [_cmd_log_setting], and the call
    raises [AttributeError]. *)
Theorem get_setting_is_not_dispatched (c : settings) :
  let r1 := parse_command "set_settings --sunrise_hour 8" (declared c) in
  let r2 := parse_command "get_setting sunrise_hour" (snd r1) in
  fst r1 = inr tt
  /\ shown_settings (snd r1)
     = [("user_mode", Some (VInt (user_mode c)));
        ("time_check", Some (VInt (time_check c)));
        ("sunrise_hour", Some (VInt 8));
        ("sunset_hour", Some (VInt (sunset_hour c)));
        ("low_light_threshold", Some (VInt (low_light_threshold c)));
        ("low_temp_threshold", Some (VInt (low_temp_threshold c)));
        ("high_temp_threshold", Some (VInt (high_temp_threshold c)));
        ("adapt_with_env_in_plain_day",
         Some (VBool (adapt_with_env_in_plain_day c)))]
  /\ fst r2 = inl (AttributeError "_cmd_get_setting")
  /\ status_lines (snd r2) = ["sunrise_hour now has 8 is now"].
Proof. vm_compute. repeat split. Qed.

(** On the parser that [_init_commands] leaves behind when it raises, no
    command has an argument: both commands are syntax errors, logged. *)
Lemma commands_on_parser_as_built (c : settings) :
  let st := snd (_init_commands Literal.int (started c [] 12)) in
  let r1 := parse_command "set_settings --sunrise_hour 8" st in
  let r2 := parse_command "get_setting sunrise_hour" (snd r1) in
  fst r1 = inr tt /\ fst r2 = inr tt
  /\ shown_settings (snd r2) = shown_settings (started c [] 12)
  /\ status_lines (snd r2) = []
  /\ length (error_lines (snd r2)) = 2%nat.
Proof. vm_compute. repeat split. Qed.

Lemma hysteresis_closes_witness :
  let st := on_self (set_last_closed (Some 1699999000%Q))
              (on_self (set__shutters_state (Some SHUTTERS_CLOSED))
                 (started default_settings [] 12)) in
  let run := _automatic_shutters Literal.str_float (FNum 20) (FNum 500) st in
  (exists st1, up_to_log_and_clock st st1
               /\ run = _close_shutters_if_opened st1)
  /\ (fst run = inr tt ->
      _CentralUnit__shutters_state (self (snd run)) = Some SHUTTERS_CLOSED).
Proof.
  intros st.
  apply (hysteresis_closes Literal.str_float default_settings st
           (FNum 20) (FNum 500) 1699999000%Q);
    first [reflexivity | eexists; reflexivity].
Defined.

Lemma hot_midday_closes_witness :
  let st := started (mkSettings USER_MODE_AUTO 600 7 19 100 0 30 true) [] 12 in
  let run := _automatic_shutters Literal.str_float (FNum 35) (FNum 500) st in
  _CentralUnit__shutters_state (self st) = Some SHUTTERS_OPENED
  /\ _CentralUnit__last_closed (self st) = Some 0
  /\ (exists st1, up_to_log_and_clock st st1
                  /\ run = _close_shutters_if_opened st1)
  /\ (fst run = inr tt ->
      _CentralUnit__shutters_state (self (snd run)) = Some SHUTTERS_CLOSED).
Proof.
  intros st. split; [reflexivity|]. split; [reflexivity|].
  apply (hot_midday_closes Literal.str_float
           (mkSettings USER_MODE_AUTO 600 7 19 100 0 30 true) st
           (FNum 35) (FNum 500));
    first [reflexivity | eexists; reflexivity | discriminate].
Defined.

Example hot_midday_scenario :
  let st := started (mkSettings USER_MODE_AUTO 600 7 19 100 0 30 true) [] 12 in
  let run := _automatic_shutters Literal.str_float (FNum 35) (FNum 500) st in
  fst (_get_day_time 12 (FNum 500) st) = inr (Some PLAIN_DAY)
  /\ fst run = inr tt
  /\ _CentralUnit__shutters_state (self (snd run)) = Some SHUTTERS_CLOSED
  /\ (ArduinoSerial.tx <$> (ArduinoSerial.serial <$> arduino (self (snd run))))
     = Some ["16"].
Proof. vm_compute. repeat split. Qed.

Lemma get_day_time_sunrise_witness :
  let opened := started default_settings [] 7 in
  let closed := on_self (set__shutters_state (Some SHUTTERS_CLOSED)) opened in
  _get_day_time 7 (FNum 50) opened = (inr (Some PLAIN_DAY), opened)
  /\ _get_day_time 7 (FNum 50) closed = (inr (Some PLAIN_NIGHT), closed)
  /\ _get_day_time 7 (FNum 500) closed = (inr (Some PLAIN_DAY), closed).
Proof.
  intros opened closed. split; [|split].
  - apply (get_day_time_sunrise default_settings opened (FNum 50)
             SHUTTERS_OPENED); first [reflexivity | discriminate].
  - apply (get_day_time_sunrise default_settings closed (FNum 50)
             SHUTTERS_CLOSED); first [reflexivity | discriminate].
  - apply (get_day_time_sunrise default_settings closed (FNum 500)
             SHUTTERS_CLOSED); first [reflexivity | discriminate].
Defined.

End CentralUnitFacts.

(** ** The protocol of the serial link, further *)

Module SerialProtocolFacts.
Import ArduinoSerial ArduinoSerialFacts.

Lemma concat_cons_char (sep : string) (c : ascii) (f : string) fs :
  String.concat sep (String c f :: fs) = String c (String.concat sep (f :: fs)).
Proof. destruct fs; reflexivity. Qed.

Lemma concat_split (sep : ascii) (s : string) :
  String.concat (String sep EmptyString) (split sep s) = s.
Proof.
  induction s as [|c s IH]; [reflexivity|].
  cbn [split]. pose proof (split_not_nil sep s) as Hne.
  destruct (split sep s) as [|f fs]; [contradiction|].
  destruct (Ascii.eqb c sep) eqn:E.
  - apply Ascii.eqb_eq in E. subst c.
    change (String.concat (String sep "") ("" :: f :: fs))
      with (String sep (String.concat (String sep "") (f :: fs))).
    now rewrite IH.
  - rewrite concat_cons_char. now rewrite IH.
Qed.

Lemma split_fields_whole (sep : ascii) (s : string) :
  Forall (fun f => split sep f = [f]) (split sep s).
Proof.
  induction s as [|c s IH]; cbn [split].
  - repeat constructor.
  - destruct (Ascii.eqb c sep) eqn:E.
    + constructor; [reflexivity | exact IH].
    + destruct (split sep s) as [|f fs]; [repeat constructor; cbn; now rewrite E|].
      inversion IH as [|? ? Hf Hfs]; subst.
      constructor; [|exact Hfs]. cbn [split]. now rewrite E, Hf.
Qed.

Lemma reply_fields n line info :
  reply n line = inr (Fields info) ->
  info = split ";" line /\ Z.of_nat (length info) = n.
Proof.
  unfold reply.
  destruct ((2 <=? Z.of_nat (length (split ";" line)))
            && String.eqb (nth 0 (split ";" line) EmptyString) "ERROR");
    [discriminate|].
  destruct (Z.of_nat (length (split ";" line)) =? n) eqn:E; [|discriminate].
  intros [= <-]. split; [reflexivity | now apply Z.eqb_eq].
Qed.

(** X1: the fields that [ask] returns are the line that was received:
    joined with [;] they give it back, there are as many as were expected,
    and no field holds a [;]. *)
Theorem ask_fields_are_the_line msg n le line t rest tx lg info :
  is_ascii (msg ++ le) = true ->
  is_ascii line = true ->
  fst (ask msg n le (link t ((line ++ CRLF) :: rest) tx lg))
    = inr (Fields info) ->
  String.concat ";" info = line
  /\ Z.of_nat (length info) = n
  /\ Forall (fun field => split ";" field = [field]) info.
Proof.
  intros Hmsg Hline. rewrite ask_line by assumption. cbn [fst].
  intros H. apply reply_fields in H as [-> Hn].
  split; [apply concat_split|]. split; [exact Hn | apply split_fields_whole].
Qed.

Lemma ask_fields_are_the_line_witness :
  String.concat ";" ["21.5"; "430"] = "21.5;430"
  /\ Z.of_nat (length ["21.5"; "430"]) = 2
  /\ Forall (fun field => split ";" field = [field]) ["21.5"; "430"].
Proof.
  apply (ask_fields_are_the_line "32" 2 "" "21.5;430" 1 [] [] []);
    reflexivity.
Defined.

(** X2: when no field is expected, [ask] refuses every line the peer
    sends, the empty one included: it raises [ConnectionError] for an error
    line and [ValueError] for any other, and never returns. *)
Theorem ask_nothing_expected_refuses_lines msg le line t rest tx lg :
  is_ascii (msg ++ le) = true ->
  is_ascii line = true ->
  fst (ask msg 0 le (link t ((line ++ CRLF) :: rest) tx lg))
  = inl (if (2 <=? Z.of_nat (length (split ";" line)))
            && String.eqb (nth 0 (split ";" line) EmptyString) "ERROR"
         then ConnectionError
                ("Arduino returned error : " ++ nth 1 (split ";" line) EmptyString)
         else ValueError ("Invalid value received from arduino: " ++ line)).
Proof.
  intros Hmsg Hline. rewrite ask_line by assumption. cbn [fst]. unfold reply.
  destruct ((2 <=? Z.of_nat (length (split ";" line)))
            && String.eqb (nth 0 (split ";" line) EmptyString) "ERROR");
    [reflexivity|].
  pose proof (split_not_nil ";" line) as Hne.
  destruct (split ";" line) as [|f fs]; [contradiction|].
  replace (Z.of_nat (length (f :: fs)) =? 0) with false; [reflexivity|].
  symmetry. apply Z.eqb_neq. cbn [length]. lia.
Qed.

Lemma ask_nothing_expected_refuses_lines_witness :
  fst (ask "16" 0 "" (link 1 [("OK" ++ CRLF)%string] [] []))
    = inl (ValueError "Invalid value received from arduino: OK")
  /\ fst (ask "16" 0 "" (link 1 [CRLF] [] []))
    = inl (ValueError "Invalid value received from arduino: ").
Proof.
  split.
  - apply (ask_nothing_expected_refuses_lines "16" "" "OK" 1 [] [] []);
      reflexivity.
  - apply (ask_nothing_expected_refuses_lines "16" "" "" 1 [] [] []);
      reflexivity.
Defined.

(** X3: a line whose first field is [ERROR] and that has a second field
    raises [ConnectionError] with that field, however many fields were
    expected. *)
Theorem ask_error_line_always_raises msg n le line second more t rest tx lg :
  is_ascii (msg ++ le) = true ->
  is_ascii line = true ->
  split ";" line = "ERROR" :: second :: more ->
  fst (ask msg n le (link t ((line ++ CRLF) :: rest) tx lg))
  = inl (ConnectionError ("Arduino returned error : " ++ second)).
Proof.
  intros Hmsg Hline Hsplit. rewrite ask_line by assumption. cbn [fst].
  unfold reply. rewrite Hsplit. cbn [nth]. rewrite String.eqb_refl.
  replace (2 <=? Z.of_nat (length ("ERROR" :: second :: more))) with true;
    [reflexivity|].
  symmetry. apply Z.leb_le. cbn [length]. lia.
Qed.

Lemma ask_error_line_always_raises_witness :
  fst (ask "32" 2 "" (link 1 [("ERROR;7" ++ CRLF)%string] [] []))
    = inl (ConnectionError "Arduino returned error : 7")
  /\ fst (ask "32" 3 "" (link 1 [("ERROR;a;b" ++ CRLF)%string] [] []))
    = inl (ConnectionError "Arduino returned error : a")
  /\ fst (ask "32" 1 "" (link 1 [("ERROR" ++ CRLF)%string] [] []))
    = inr (Fields ["ERROR"]).
Proof.
  split; [|split].
  - apply (ask_error_line_always_raises "32" 2 "" "ERROR;7" "7" [] 1 [] [] []);
      reflexivity.
  - apply (ask_error_line_always_raises "32" 3 "" "ERROR;a;b" "a" ["b"] 1 [] [] []);
      reflexivity.
  - reflexivity.
Defined.

(** X4: [read_line] consumes one chunk of the input and sends nothing.
    When it returns, the timeout of the port is the one it found; when the
    decoding raises under a timeout of its own, that timeout stays on the
    port. *)
Theorem read_line_timeout (timeout_ : Q) (a : ArduinoSerial.t) :
  let out := read_line timeout_ a in
  tx (serial (snd out)) = tx (serial a)
  /\ rx (serial (snd out)) = tail (rx (serial a))
  /\ (forall line, fst out = inr line ->
      timeout (serial (snd out)) = timeout (serial a))
  /\ (forall e, fst out = inl e ->
      Qeq_bool timeout_ no_timeout = false ->
      timeout (serial (snd out)) = timeout_).
Proof.
  destruct a as [[t rx tx] compat lg].
  unfold read_line, serial_read_until, decode_ascii. exec_unfold.
  cbn beta iota delta [serial timeout ArduinoSerial.rx ArduinoSerial.tx
                       set_timeout set_serial compatible_with_AS logged fst snd].
  destruct (Qeq_bool timeout_ no_timeout) eqn:Ht; cbn [negb];
    cbn beta iota delta [serial timeout ArduinoSerial.rx ArduinoSerial.tx
                       set_timeout set_serial compatible_with_AS logged fst snd];
    destruct rx as [|chunk rest];
    cbn beta iota delta [serial timeout ArduinoSerial.rx ArduinoSerial.tx
                       set_timeout set_serial compatible_with_AS logged fst snd tail].
  all: try destruct (is_ascii chunk);
    cbn beta iota delta [serial timeout ArduinoSerial.rx ArduinoSerial.tx
                       set_timeout set_serial compatible_with_AS logged fst snd tail is_ascii].
  all: try match goal with |- context [if ?b then _ else _] => destruct b end.
  all: cbn beta iota delta [serial timeout ArduinoSerial.rx ArduinoSerial.tx
                       set_timeout set_serial compatible_with_AS logged fst snd tail].
  all: repeat split; intros; try discriminate; try reflexivity.
Qed.

Lemma read_line_timeout_witness :
  timeout (serial (snd (read_line 30 (link 1 [("READY" ++ CRLF)%string] [] []))))
  = 1%Q
  /\ timeout (serial (snd (read_line 30 (link 1 [String "233" "!"] [] []))))
     = 30%Q.
Proof.
  split.
  - destruct (read_line_timeout 30 (link 1 [("READY" ++ CRLF)%string] [] []))
      as (_ & _ & Hreturns & _).
    exact (Hreturns (Some "READY") eq_refl).
  - destruct (read_line_timeout 30 (link 1 [String "233" "!"] [] []))
      as (_ & _ & _ & Hraises).
    eapply Hraises; reflexivity.
Defined.

Lemma substring_all (s : string) : substring 0 (String.length s) s = s.
Proof. induction s as [|c s IH]; cbn; [reflexivity | now rewrite IH]. Qed.

Lemma substring_short (s : string) (m : nat) :
  (String.length s <= m)%nat -> substring 0 m s = s.
Proof.
  revert m. induction s as [|c s IH]; intros [|m] H; cbn in *;
    try reflexivity; try lia.
  rewrite IH by lia. reflexivity.
Qed.

Lemma substring_glue (s : string) (k : nat) :
  (k <= String.length s)%nat ->
  substring 0 k s ++ substring k (String.length s - k) s = s.
Proof.
  revert k. induction s as [|c s IH]; intros k H.
  - destruct k; [reflexivity | cbn in H; lia].
  - destruct k as [|k].
    + change (String c (substring 0 (String.length s) s) = String c s).
      now rewrite substring_all.
    + change (String c (substring 0 k s
                        ++ substring k (String.length s - k) s) = String c s).
      cbn in H. now rewrite IH by lia.
Qed.

Lemma drop_last2_last2 (s : string) : drop_last2 s ++ last2 s = s.
Proof.
  unfold drop_last2, last2.
  destruct (le_lt_dec 2 (String.length s)) as [H|H].
  - assert (Hk : (String.length s - 2 <= String.length s)%nat) by lia.
    pose proof (substring_glue s (String.length s - 2) Hk) as G.
    replace (String.length s - (String.length s - 2))%nat with 2%nat in G
      by lia.
    exact G.
  - replace (String.length s - 2)%nat with 0%nat by lia.
    rewrite (substring_short s 2) by lia. now destruct s.
Qed.

Lemma read_line_some (q : Q) (t : Q) rx tx compat lg line :
  fst (read_line q (mk (mkSerial t rx tx) compat lg)) = inr (Some line)
  <-> exists rest, rx = (line ++ CRLF) :: rest /\ is_ascii line = true.
Proof.
  unfold read_line, serial_read_until, decode_ascii. exec_unfold.
  cbn beta iota delta [serial timeout ArduinoSerial.rx ArduinoSerial.tx
                       set_timeout set_serial compatible_with_AS logged fst snd].
  split.
  - destruct (negb (Qeq_bool q no_timeout));
      cbn beta iota delta [serial timeout ArduinoSerial.rx ArduinoSerial.tx
                       set_timeout set_serial compatible_with_AS logged fst snd];
      (destruct rx as [|chunk rest];
       cbn beta iota delta [serial timeout ArduinoSerial.rx ArduinoSerial.tx
                       set_timeout set_serial compatible_with_AS logged fst snd];
       [cbn; discriminate|]);
      destruct (is_ascii chunk) eqn:Hascii; cbn beta iota; try discriminate;
      destruct (String.eqb (last2 chunk) CRLF) eqn:Hlast; cbn beta iota;
      try discriminate;
      intros [= <-]; apply String.eqb_eq in Hlast;
      exists rest; rewrite <- Hlast, drop_last2_last2;
      (split; [reflexivity|]);
      rewrite <- (drop_last2_last2 chunk), is_ascii_app in Hascii;
      now apply andb_true_iff in Hascii.
  - intros (rest & -> & Hline).
    assert (Hraw : is_ascii (line ++ CRLF) = true)
      by (rewrite is_ascii_app, Hline; reflexivity).
    destruct (negb (Qeq_bool q no_timeout));
      cbn beta iota delta [serial timeout ArduinoSerial.rx ArduinoSerial.tx
                       set_timeout set_serial compatible_with_AS logged fst snd];
      rewrite Hraw; cbn beta iota;
      rewrite last2_CRLF, drop_last2_CRLF, String.eqb_refl; reflexivity.
Qed.

Lemma read_line_any_timeout (q : Q) line t rest tx compat lg :
  is_ascii line = true ->
  read_line q (mk (mkSerial t ((line ++ CRLF) :: rest) tx) compat lg)
  = (inr (Some line), mk (mkSerial t rest tx) compat lg).
Proof.
  intros Hline.
  assert (Hraw : is_ascii (line ++ CRLF) = true)
    by (rewrite is_ascii_app, Hline; reflexivity).
  unfold read_line, serial_read_until, decode_ascii. exec_unfold.
  destruct (negb (Qeq_bool q no_timeout));
    cbn beta iota delta [serial timeout ArduinoSerial.rx ArduinoSerial.tx
                     set_timeout set_serial compatible_with_AS logged fst snd];
    rewrite Hraw; cbn beta iota;
    rewrite last2_CRLF, drop_last2_CRLF, String.eqb_refl; reflexivity.
Qed.

Lemma read_line_frame (q : Q) (a : ArduinoSerial.t) :
  tx (serial (snd (read_line q a))) = tx (serial a)
  /\ compatible_with_AS (snd (read_line q a)) = compatible_with_AS a
  /\ logged (snd (read_line q a)) = logged a.
Proof.
  destruct a as [[t rx tx] compat lg].
  unfold read_line, serial_read_until, decode_ascii. exec_unfold.
  destruct (negb (Qeq_bool q no_timeout));
    cbn beta iota delta [serial timeout ArduinoSerial.rx ArduinoSerial.tx
                     set_timeout set_serial compatible_with_AS logged fst snd];
    destruct rx as [|chunk rest];
    cbn beta iota delta [serial timeout ArduinoSerial.rx ArduinoSerial.tx
                     set_timeout set_serial compatible_with_AS logged fst snd
                     is_ascii];
    try destruct (is_ascii chunk); cbn beta iota;
    try match goal with |- context [if ?b then _ else _] => destruct b end;
    repeat split.
Qed.

Lemma bind_unfold {S A B} (m : exec S A) (k : A -> exec S B) s :
  (m ≫= k) s
  = match m s with
    | (inr a, s') => k a s'
    | (inl e, s') => (inl e, s')
    end.
Proof. reflexivity. Qed.

Lemma handshake_done t rest tx :
  __init__ true
    (mkSerial t (("CONNECT" ++ CRLF) :: ("READY" ++ CRLF) :: rest) tx)
  = (inr tt,
     mk (mkSerial t rest (tx ++ ["1"])%list) true
        ["Waiting for Arduino's CONNECT"; "CONNECT received";
         "Sending signal"; "Sent a signal"; "Waiting for READY";
         "READY received !"]).
Proof. reflexivity. Qed.

Lemma handshake_no_connect t rx tx :
  head rx <> Some ("CONNECT" ++ CRLF) ->
  (exists e, fst (__init__ true (mkSerial t rx tx)) = inl e)
  /\ ArduinoSerial.tx (serial (snd (__init__ true (mkSerial t rx tx)))) = tx.
Proof.
  intros Hhead. unfold __init__. cbv zeta. cbn [negb]. cbv iota.
  rewrite bind_unfold. cbn [_log_fn modify].
  rewrite bind_unfold.
  match goal with
  | |- context [ read_line ?q ?a ] =>
      pose proof (read_line_frame q a) as (Htx & _ & _);
      pose proof (read_line_some q t rx tx true
                    ["Waiting for Arduino's CONNECT"] "CONNECT") as Hsome;
      change (mk (mkSerial t rx tx) true ["Waiting for Arduino's CONNECT"])
        with a in Hsome;
      destruct (read_line q a) as [[e|l] a1]
  end.
  - split; [eexists; reflexivity | exact Htx].
  - destruct (decide (l = Some "CONNECT")) as [->|Hl].
    + exfalso. destruct (proj1 Hsome eq_refl) as (rest & -> & _).
      now apply Hhead.
    + rewrite bool_decide_eq_false_2 by exact Hl.
      split; [eexists; reflexivity | exact Htx].
Qed.

Ltac link_cbn :=
  cbn beta iota delta
    [serial compatible_with_AS logged timeout ArduinoSerial.rx
     ArduinoSerial.tx set_serial set_timeout _log_fn modify serial_write
     negb fst snd].

Lemma handshake_no_ready t r1 tx :
  head r1 <> Some ("READY" ++ CRLF) ->
  exists e,
    fst (__init__ true (mkSerial t (("CONNECT" ++ CRLF) :: r1) tx)) = inl e.
Proof.
  intros Hhead. unfold __init__. cbv zeta. cbn [negb]. cbv iota.
  rewrite bind_unfold. link_cbn.
  rewrite bind_unfold.
  rewrite read_line_any_timeout by reflexivity.
  rewrite bool_decide_eq_true_2 by reflexivity. link_cbn.
  do 2 (rewrite bind_unfold; link_cbn).
  rewrite bind_unfold. unfold send at 1, encode_ascii.
  change (is_ascii ("1" ++ "")) with true. cbv iota.
  rewrite bind_unfold. cbn [ret]. link_cbn.
  do 2 (rewrite bind_unfold; link_cbn).
  rewrite bind_unfold.
  match goal with
  | |- context [ read_line ?q (mk (mkSerial ?t0 ?rx0 ?tx0) ?c0 ?lg0) ] =>
      pose proof (read_line_some q t0 rx0 tx0 c0 lg0 "READY") as Hsome;
      destruct (read_line q (mk (mkSerial t0 rx0 tx0) c0 lg0)) as [[e|l] a1]
  end.
  - eexists; reflexivity.
  - destruct (decide (l = Some "READY")) as [->|Hl].
    + exfalso. destruct (proj1 Hsome eq_refl) as (rest & -> & _).
      now apply Hhead.
    + rewrite bool_decide_eq_false_2 by exact Hl. eexists; reflexivity.
Qed.

Lemma handshake_success t rx tx :
  fst (__init__ true (mkSerial t rx tx)) = inr tt ->
  exists rest, rx = ("CONNECT" ++ CRLF) :: ("READY" ++ CRLF) :: rest.
Proof.
  intros Hok.
  destruct (decide (head rx = Some ("CONNECT" ++ CRLF))) as [H1|H1].
  - destruct rx as [|c r1]; [discriminate|]. injection H1 as ->.
    destruct (decide (head r1 = Some ("READY" ++ CRLF))) as [H2|H2].
    + destruct r1 as [|c rest]; [discriminate|]. injection H2 as ->.
      now exists rest.
    + destruct (handshake_no_ready t r1 tx H2) as [e He]. congruence.
  - destruct (proj1 (handshake_no_connect t rx tx H1)) as [e He].
    congruence.
Qed.

(** Every message of the handshake is a text that the communicator
    accepts. *)
Lemma handshake_logged (port : Serial) :
  Forall (fun msg => (String.length msg =? 0)%nat = false)
         (logged (snd (__init__ true port))).
Proof.
  unfold __init__. cbv zeta. cbn [negb]. cbv iota.
  rewrite bind_unfold. link_cbn.
  rewrite bind_unfold.
  match goal with
  | |- context [ read_line ?q ?a ] =>
      pose proof (read_line_frame q a) as (_ & _ & Hlg);
      destruct (read_line q a) as [[e|l] a1]
  end; cbn [snd logged app] in Hlg.
  - cbn [snd]. rewrite Hlg. repeat constructor.
  - destruct (bool_decide (l = Some "CONNECT")); cbn [negb]; cbv iota.
    + do 2 (rewrite bind_unfold; link_cbn).
      rewrite bind_unfold. unfold send at 1, encode_ascii.
      change (is_ascii ("1" ++ "")) with true. cbv iota.
      rewrite bind_unfold. cbn [ret]. link_cbn.
      do 2 (rewrite bind_unfold; link_cbn).
      rewrite bind_unfold.
      match goal with
      | |- context [ read_line ?q ?a ] =>
          pose proof (read_line_frame q a) as (_ & _ & Hlg2);
          destruct (read_line q a) as [[e|l2] a2]
      end; cbn [snd logged app] in Hlg2.
      * cbn [snd]. rewrite Hlg2, Hlg. repeat constructor.
      * destruct (bool_decide (l2 = Some "READY")); cbn [negb]; cbv iota;
          link_cbn; cbn [raise snd logged]; rewrite Hlg2, Hlg;
          repeat constructor.
    + cbn [raise snd]. rewrite Hlg. repeat constructor.
Qed.

(** X5: the constructor, for a programmed peer, succeeds exactly when the
    peer sends [CONNECT] and then [READY]; it has then consumed both lines,
    sent the signal [1] once and left the timeout as given.  Nothing is sent
    to a peer whose first line is not [CONNECT]. *)
Theorem constructor_handshake (port : Serial) :
  let out := __init__ true port in
  (fst out = inr tt
   <-> exists rest,
         rx port = ("CONNECT" ++ CRLF) :: ("READY" ++ CRLF) :: rest)
  /\ (fst out = inr tt ->
      serial (snd out)
      = mkSerial (timeout port) (drop 2 (rx port)) (tx port ++ ["1"])%list)
  /\ (head (rx port) <> Some ("CONNECT" ++ CRLF) ->
      tx (serial (snd out)) = tx port).
Proof.
  destruct port as [t rx tx]. cbv zeta.
  cbn [ArduinoSerial.rx ArduinoSerial.tx timeout].
  pose proof (handshake_success t rx tx) as Hiff.
  split; [split; [exact Hiff|]|split].
  - intros [rest ->]. now rewrite handshake_done.
  - intros Hok. destruct (Hiff Hok) as [rest ->]. now rewrite handshake_done.
  - intros H1. exact (proj2 (handshake_no_connect t rx tx H1)).
Qed.

Lemma constructor_handshake_witness :
  let port :=
    mkSerial 1 [("CONNECT" ++ CRLF)%string; ("READY" ++ CRLF)%string] [] in
  let stranger := mkSerial 1 [("HELLO" ++ CRLF)%string] [] in
  fst (__init__ true port) = inr tt
  /\ serial (snd (__init__ true port)) = mkSerial 1 [] ["1"]
  /\ tx (serial (snd (__init__ true stranger))) = [].
Proof.
  intros port stranger.
  destruct (constructor_handshake port) as (Hiff & Hserial & _).
  assert (Hok : fst (__init__ true port) = inr tt)
    by (apply Hiff; exists []; reflexivity).
  split; [exact Hok|]. split; [exact (Hserial Hok)|].
  destruct (constructor_handshake stranger) as (_ & _ & Hsilent).
  apply Hsilent. discriminate.
Defined.

End SerialProtocolFacts.

(** ** The queue of commands of the file communicator *)

Module CommandQueueFacts.
Import CentralUnitCommunicator CentralUnitFacts.

Section Queue.
Context (strip : string -> string).

Lemma gather_spec (lines : list string) (cmd : list string)
    (c : CentralUnitCommunicator.t) :
  Z.of_nat (length cmd) <= _max_cmd c ->
  let room := (Z.to_nat (_max_cmd c) - length cmd)%nat in
  gather strip lines cmd c
  = (inr (cmd ++ take room (pending strip lines))%list,
     if (room <? length (pending strip lines))%nat
     then snd (log (queue_warning c) "communicator" "warning" c)
     else c).
Proof.
  revert cmd. induction lines as [|line rest IH]; intros cmd Hle room.
  - cbn. rewrite take_nil, app_nil_r. reflexivity.
  - cbn [gather]. unfold pending. rewrite fmap_cons. cbn [filter list_filter].
    fold (pending strip rest).
    destruct (decide (String.length (strip (strip line)) <> 0%nat)) as [Hnb|Hb].
    + rewrite (proj2 (Nat.eqb_neq _ _) Hnb). cbn [negb]. rewrite bind_get.
      destruct (_max_cmd c <? Z.of_nat (length cmd) + 1) eqn:Hfull.
      * apply Z.ltb_lt in Hfull.
        assert (Hroom : room = 0%nat) by (subst room; lia).
        rewrite Hroom. cbn [take length Nat.ltb Nat.leb]. rewrite app_nil_r.
        fold (queue_warning c).
        pose proof (log_ok (queue_warning c) "communicator" "warning" c
                      (non_empty_app_l "maximum of " _ eq_refl)
                      eq_refl eq_refl) as Hlog.
        assert (Hrun : log (queue_warning c) "communicator" "warning" c
                       = (inr tt,
                          snd (log (queue_warning c) "communicator" "warning" c)))
          by (rewrite <- Hlog; apply surjective_pairing).
        rewrite (bind_inr _ _ _ _ _ Hrun). reflexivity.
      * apply Z.ltb_ge in Hfull.
        rewrite IH by (rewrite List.length_app; cbn; lia).
        rewrite List.length_app. cbn [length].
        assert (Hroom : room = S (Z.to_nat (_max_cmd c)
                                  - (length cmd + 1))%nat) by (subst room; lia).
        rewrite Hroom. cbn [take length]. rewrite <- app_assoc. cbn [app].
        reflexivity.
    + assert (Hz : (String.length (strip (strip line)) =? 0)%nat = true)
        by (apply Nat.eqb_eq; destruct (String.length (strip (strip line)));
            [reflexivity | exfalso; apply Hb; discriminate]).
      rewrite Hz. cbn [negb]. apply IH. exact Hle.
Qed.

Lemma log_written msg source log_type (c : CentralUnitCommunicator.t) :
  (String.length msg =? 0)%nat = false ->
  (String.length source =? 0)%nat = false ->
  (String.length log_type =? 0)%nat = false ->
  log msg source log_type c
  = (inr tt,
     if bool_decide (log_type ∈ _log_types_on c)
     then mk (_log_types_on c) (_max_cmd c) (_line_end c) (input_file c)
             (output_file c ++ [mkLine source log_type msg])%list
     else c).
Proof.
  intros Hm Hs Ht. unfold log. rewrite Hm, Hs, Ht. cbn [orb].
  rewrite bind_get. now destruct (bool_decide _).
Qed.

Lemma get_line_end_valid (c : CentralUnitCommunicator.t) :
  0 <= _line_end c <= 2 ->
  exists ending, get_line_end c = (inr ending, c).
Proof.
  intros H. unfold get_line_end. rewrite bind_get.
  assert (Hcase : _line_end c = 0 \/ _line_end c = 1 \/ _line_end c = 2)
    by lia.
  destruct Hcase as [-> | [-> | ->]]; eexists; reflexivity.
Qed.

(** X6: [get_cmd] returns the stripped non-blank lines of the input file,
    in order, up to [_max_cmd] of them.  The file is emptied exactly when a
    command is returned, so the lines beyond the limit are lost; the warning
    is logged exactly when a line was left over and warnings are on. *)
Theorem get_cmd_queue (c : CentralUnitCommunicator.t) :
  0 <= _line_end c <= 2 ->
  0 <= _max_cmd c ->
  let out := get_cmd strip c in
  let cmds := take (Z.to_nat (_max_cmd c)) (pending strip (input_file c)) in
  fst out = inr cmds
  /\ input_file (snd out)
     = match cmds with [] => input_file c | _ :: _ => [] end
  /\ output_file (snd out)
     = (output_file c
        ++ if (Z.to_nat (_max_cmd c) <? length (pending strip (input_file c)))%nat
              && bool_decide ("warning" ∈ _log_types_on c)
           then [mkLine "communicator" "warning" (queue_warning c)]
           else [])%list
  /\ _log_types_on (snd out) = _log_types_on c
  /\ _max_cmd (snd out) = _max_cmd c
  /\ _line_end (snd out) = _line_end c.
Proof.
  intros Hle Hmax out cmds. subst out. unfold get_cmd.
  destruct (get_line_end_valid c Hle) as [ending Hend].
  rewrite (bind_inr _ _ _ _ _ Hend). rewrite bind_get.
  rewrite (bind_inr _ _ _ _ _
             (gather_spec (input_file c) [] c ltac:(cbn; lia))).
  cbn [app length]. rewrite Nat.sub_0_r. fold cmds.
  rewrite (log_written (queue_warning c) "communicator" "warning" c
             (non_empty_app_l "maximum of " _ eq_refl) eq_refl eq_refl).
  destruct (Z.to_nat (_max_cmd c) <? length (pending strip (input_file c)))%nat;
    destruct (bool_decide ("warning" ∈ _log_types_on c));
    destruct cmds as [|cmd0 more]; cbn; rewrite ?app_nil_r; repeat split.
Qed.
(** X7: a communicator that the constructor has built is within the
    bounds its methods rely on: at least two commands fit in the queue, the
    line ending is one of the three, so that [get_line_end] finds it, the
    input file is empty and the log file is kept; [get_cmd] on it returns
    no command and changes nothing. *)
Theorem constructed_communicator (args : kwargs) (old_log : list log_line)
    (c : CentralUnitCommunicator.t) :
  File__init__ args old_log = inr c ->
  2 <= _max_cmd c /\ 0 <= _line_end c <= 2
  /\ input_file c = [] /\ output_file c = old_log
  /\ (exists ending, get_line_end c = (inr ending, c))
  /\ get_cmd strip c = (inr [], c).
Proof.
  unfold File__init__, check_attrs.
  destruct (default 10 (kw_max_cmds_in_queue args) <=? 1) eqn:Hmax;
    [discriminate|].
  apply Z.leb_gt in Hmax.
  destruct (bool_decide (default LINE_END_LF (kw_line_end args)
                         ∈ [LINE_END_CR_LF; LINE_END_LF; LINE_END_CR]))
    eqn:Hend; [|discriminate].
  apply bool_decide_eq_true in Hend. cbn [negb]. intros [= <-].
  cbn [_max_cmd _line_end input_file output_file].
  assert (Hle : 0 <= default LINE_END_LF (kw_line_end args) <= 2).
  { unfold LINE_END_CR_LF, LINE_END_LF, LINE_END_CR in Hend |- *.
    repeat (apply elem_of_cons in Hend as [Hend|Hend]; [lia|]).
    inversion Hend. }
  split; [lia|]. split; [exact Hle|]. split; [reflexivity|].
  split; [reflexivity|].
  match goal with
  | |- context [ get_line_end ?c ] =>
      destruct (get_line_end_valid c Hle) as [ending Hending]
  end.
  split; [exists ending; exact Hending|].
  unfold get_cmd. rewrite (bind_inr _ _ _ _ _ Hending). reflexivity.
Qed.
End Queue.

Lemma get_cmd_queue_witness :
  let c := mk ["error"; "warning"; "status"; "debug"] 2 LINE_END_LF
              ["  shutdown "; "   "; "force_update"; "shutdown"] [] in
  let out := get_cmd Literal.strip c in
  fst out = inr ["shutdown"; "force_update"]
  /\ input_file (snd out) = []
  /\ output_file (snd out)
     = [mkLine "communicator" "warning"
          "maximum of 2 commands in queue exceeded"]
  /\ _log_types_on (snd out) = _log_types_on c
  /\ _max_cmd (snd out) = _max_cmd c
  /\ _line_end (snd out) = _line_end c.
Proof.
  intros c.
  refine (get_cmd_queue Literal.strip c _ _); unfold c; cbv; intuition discriminate.
Defined.

Lemma constructed_communicator_witness :
  2 <= _max_cmd communicator0 /\ 0 <= _line_end communicator0 <= 2
  /\ input_file communicator0 = [] /\ output_file communicator0 = []
  /\ (exists ending, get_line_end communicator0 = (inr ending, communicator0))
  /\ get_cmd Literal.strip communicator0 = (inr [], communicator0).
Proof.
  exact (constructed_communicator Literal.strip no_kwargs [] communicator0
           eq_refl).
Defined.

End CommandQueueFacts.

(** ** The moment of the day, the decision and the orders, further *)

Module ShutterFacts.
Import CentralUnit ArduinoSerialFacts CentralUnitFacts.

Ltac day_time_run Hc :=
  unfold _get_day_time, or_else, and_then, config, getattr, subscript, int_of;
  exec_unfold;
  exec_run ltac:(rewrite ?Hc; config_lookups).

Ltac to_Z_facts :=
  repeat match goal with
    | H : (_ <? _) = true |- _ => apply Z.ltb_lt in H
    | H : (_ <? _) = false |- _ => apply Z.ltb_ge in H
    | H : (_ =? _) = true |- _ => apply Z.eqb_eq in H
    | H : (_ =? _) = false |- _ => apply Z.eqb_neq in H
    end.

Lemma get_day_time_between (c : settings) (st : state) hour lum :
  _CentralUnit__config (self st) = Some (config_of c) ->
  sunrise_hour c < hour < sunset_hour c ->
  _get_day_time hour lum st = (inr (Some PLAIN_DAY), st).
Proof.
  intros Hc H. day_time_run Hc; to_Z_facts; first [reflexivity | lia].
Qed.

Lemma get_day_time_outside (c : settings) (st : state) hour lum :
  _CentralUnit__config (self st) = Some (config_of c) ->
  sunset_hour c < hour \/ hour < sunrise_hour c ->
  _get_day_time hour lum st = (inr (Some PLAIN_NIGHT), st).
Proof.
  intros Hc H. day_time_run Hc; to_Z_facts; first [reflexivity | lia].
Qed.

(** X8: away from the two boundary hours [_get_day_time] looks at the hour
    only: strictly between sunrise and sunset it is plain day, after the
    sunset hour or before the sunrise hour it is plain night, whatever the
    luminosity and the shutters; the state is left as it was. *)
Theorem away_from_the_boundary_hours (c : settings) (st : state) (hour : Z)
    (lum : pyfloat) :
  _CentralUnit__config (self st) = Some (config_of c) ->
  (sunrise_hour c < hour < sunset_hour c ->
   _get_day_time hour lum st = (inr (Some PLAIN_DAY), st))
  /\ (sunset_hour c < hour \/ hour < sunrise_hour c ->
      _get_day_time hour lum st = (inr (Some PLAIN_NIGHT), st)).
Proof.
  intros Hc. split.
  - apply get_day_time_between, Hc.
  - apply get_day_time_outside, Hc.
Qed.

Lemma away_from_the_boundary_hours_witness :
  let st := started default_settings [] 12 in
  _get_day_time 12 (FNum 5) st = (inr (Some PLAIN_DAY), st)
  /\ _get_day_time 22 (FNum 5000) st = (inr (Some PLAIN_NIGHT), st)
  /\ _get_day_time 3 (FNum 5000) st = (inr (Some PLAIN_NIGHT), st).
Proof.
  intros st. split; [|split].
  - apply (away_from_the_boundary_hours default_settings st 12 (FNum 5) eq_refl).
    cbn. lia.
  - apply (away_from_the_boundary_hours default_settings st 22 (FNum 5000)
             eq_refl).
    cbn. lia.
  - apply (away_from_the_boundary_hours default_settings st 3 (FNum 5000)
             eq_refl).
    cbn. lia.
Defined.

(** X9: at the sunset hour it is still plain day exactly when the
    luminosity is above the low-light threshold and the shutters are
    recorded as opened; otherwise it is plain night.  The sunrise hour is
    before the sunset hour. *)
Theorem sunset_classification (c : settings) (st : state) (lum : pyfloat)
    (s : Z) :
  _CentralUnit__config (self st) = Some (config_of c) ->
  _CentralUnit__shutters_state (self st) = Some s ->
  sunrise_hour c < sunset_hour c ->
  _get_day_time (sunset_hour c) lum st
  = (inr (Some (if negb (float_le lum (of_int (low_light_threshold c)))
                   && (s =? SHUTTERS_OPENED)
                then PLAIN_DAY else PLAIN_NIGHT)), st).
Proof.
  intros Hc Hs Hlt.
  unfold _get_day_time, or_else, and_then, config, getattr, subscript, int_of.
  exec_unfold.
  exec_run ltac:(rewrite ?Hc, ?Hs; config_lookups); to_Z_facts;
    first [reflexivity | lia].
Qed.

Lemma sunset_classification_witness :
  let opened := started default_settings [] 19 in
  let closed := on_self (set__shutters_state (Some SHUTTERS_CLOSED)) opened in
  _get_day_time 19 (FNum 500) opened = (inr (Some PLAIN_DAY), opened)
  /\ _get_day_time 19 (FNum 50) opened = (inr (Some PLAIN_NIGHT), opened)
  /\ _get_day_time 19 (FNum 500) closed = (inr (Some PLAIN_NIGHT), closed).
Proof.
  intros opened closed. split; [|split].
  - exact (sunset_classification default_settings opened (FNum 500)
             SHUTTERS_OPENED eq_refl eq_refl eq_refl).
  - exact (sunset_classification default_settings opened (FNum 50)
             SHUTTERS_OPENED eq_refl eq_refl eq_refl).
  - exact (sunset_classification default_settings closed (FNum 500)
             SHUTTERS_CLOSED eq_refl eq_refl eq_refl).
Defined.

(** X10: with the settings in place and a recorded shutter state,
    [_get_day_time] always answers [PLAIN_DAY] or [PLAIN_NIGHT]: the end of
    its body is never reached, no exception is raised and the state is left
    as it was, whatever the hour, the luminosity and the order of the two
    hours. *)
Theorem day_or_night (c : settings) (st : state) (hour : Z) (lum : pyfloat) :
  _CentralUnit__config (self st) = Some (config_of c) ->
  is_Some (_CentralUnit__shutters_state (self st)) ->
  _get_day_time hour lum st = (inr (Some PLAIN_DAY), st)
  \/ _get_day_time hour lum st = (inr (Some PLAIN_NIGHT), st).
Proof.
  intros Hc Hs.
  destruct (get_day_time_total c st hour lum Hc Hs) as (dm & [-> | ->] & H);
    auto.
Qed.

Lemma day_or_night_witness :
  let st := started (mkSettings USER_MODE_AUTO 600 19 7 100 0 30 true) [] 7 in
  _get_day_time 7 (FNum 50) st = (inr (Some PLAIN_DAY), st)
  \/ _get_day_time 7 (FNum 50) st = (inr (Some PLAIN_NIGHT), st).
Proof.
  intros st.
  apply (day_or_night (mkSettings USER_MODE_AUTO 600 19 7 100 0 30 true) st 7
           (FNum 50) eq_refl).
  eexists. reflexivity.
Defined.

Section DecisionExtra.
Context (builtin_str_float : pyfloat -> string).

Ltac must_close_run rw :=
  unfold must_close, or_else, and_then, config, getattr, subscript, int_of,
    time_daylight, time;
  exec_unfold;
  exec_run rw.

Lemma must_close_night (st : state) hour temp lum :
  must_close (Some PLAIN_NIGHT) hour temp lum st = (inr true, st).
Proof. reflexivity. Qed.

Lemma must_close_cold_dark (c : settings) (st : state) day_moment hour temp lum :
  _CentralUnit__config (self st) = Some (config_of c) ->
  adapt_with_env_in_plain_day c = true ->
  float_lt temp (of_int (low_temp_threshold c)) = true ->
  float_lt lum (of_int (low_light_threshold c)) = true ->
  must_close day_moment hour temp lum st = (inr true, st).
Proof.
  intros Hc Ha Hcold Hdark.
  must_close_run ltac:(rewrite ?Hc, ?Ha, ?Hcold, ?Hdark; config_lookups;
                       cbn [truthy]); reflexivity.
Qed.

Lemma Qlt_bool_false (x y : Q) : (y <= x)%Q -> Qlt_bool x y = false.
Proof.
  intros H. unfold Qlt_bool. apply Qle_bool_iff in H. now rewrite H.
Qed.

Lemma must_close_no_reason (c : settings) (st : state) hour temp lum
    (last_closed : Q) :
  _CentralUnit__config (self st) = Some (config_of c) ->
  _last_closed (self st) = Some last_closed ->
  (last_closed <= time_time st (time_calls st) - inject_Z 3600)%Q ->
  adapt_with_env_in_plain_day c
  && ((float_lt temp (of_int (low_temp_threshold c))
       && float_lt lum (of_int (low_light_threshold c)))
      || (float_lt (of_int (high_temp_threshold c)) temp
          && (Z.abs (hour - (13 + daylight st)) <=? 4))) = false ->
  fst (must_close (Some PLAIN_DAY) hour temp lum st) = inr false
  /\ up_to_log_and_clock st (snd (must_close (Some PLAIN_DAY) hour temp lum st)).
Proof.
  intros Hc Hl Hold Hno. revert Hno.
  must_close_run ltac:(rewrite ?Hc, ?Hl, ?(Qlt_bool_false _ _ Hold);
                       config_lookups; cbn [truthy]);
    intros; try discriminate;
    (split; [reflexivity | first [apply up_to_refl | apply up_to_clock]]).
Qed.

Lemma open_returns_opened (st : state) :
  fst (_open_shutters_if_closed st) = inr tt ->
  _CentralUnit__shutters_state (self (snd (_open_shutters_if_closed st)))
  = Some SHUTTERS_OPENED.
Proof.
  methods_unfold.
  destruct st as [o tt tc h d], o as [lp lcl [s|] ap cf lck lc [a|] [cm|]];
    obj_run idtac; try discriminate; try reflexivity.
  all: intros _; apply Z.eqb_eq in Heqb; now subst.
Qed.

Lemma branch_taken (c : settings) (st : state) temp lum (b : bool) :
  _CentralUnit__config (self st) = Some (config_of c) ->
  is_Some (_CentralUnit__shutters_state (self st)) ->
  is_Some (_Communicator (self st)) ->
  (forall day_moment st0,
      _get_day_time (tm_hour st) lum st = (inr (Some day_moment), st) ->
      after_logging st st0 ->
      fst (must_close (Some day_moment) (tm_hour st) temp lum st0) = inr b
      /\ up_to_log_and_clock st0
           (snd (must_close (Some day_moment) (tm_hour st) temp lum st0))) ->
  exists st1,
    up_to_log_and_clock st st1
    /\ _automatic_shutters builtin_str_float temp lum st
       = (if b then _close_shutters_if_opened else _open_shutters_if_closed) st1.
Proof.
  intros Hc Hs Hcomm Hmust.
  destruct (automatic_shutters_prefix builtin_str_float c st temp lum Hc Hs Hcomm)
    as (day_moment & st0 & Hday & Hst0 & Hrun).
  destruct (Hmust day_moment st0 Hday Hst0) as [Hb Hup].
  exists (snd (must_close (Some day_moment) (tm_hour st) temp lum st0)).
  split; [exact (up_to_trans _ _ _ (proj1 Hst0) Hup)|].
  rewrite Hrun.
  assert (Hpair : must_close (Some day_moment) (tm_hour st) temp lum st0
                  = (inr b,
                     snd (must_close (Some day_moment) (tm_hour st) temp lum st0)))
    by (rewrite <- Hb; apply surjective_pairing).
  rewrite (bind_inr _ _ _ _ _ Hpair). now destruct b.
Qed.

(** X11: in plain night, that is after the sunset hour or before the
    sunrise hour, [_automatic_shutters] takes the closing branch whatever
    the temperature and the luminosity, and when it returns the shutters are
    recorded as closed. *)
Theorem night_closes (c : settings) (st : state) (temp lum : pyfloat) :
  _CentralUnit__config (self st) = Some (config_of c) ->
  is_Some (_CentralUnit__shutters_state (self st)) ->
  is_Some (_Communicator (self st)) ->
  sunset_hour c < tm_hour st \/ tm_hour st < sunrise_hour c ->
  let run := _automatic_shutters builtin_str_float temp lum st in
  (exists st1, up_to_log_and_clock st st1
               /\ run = _close_shutters_if_opened st1)
  /\ (fst run = inr tt ->
      _CentralUnit__shutters_state (self (snd run)) = Some SHUTTERS_CLOSED).
Proof.
  intros Hc Hs Hcomm Hnight run.
  assert (Hbranch : exists st1,
             up_to_log_and_clock st st1
             /\ run = _close_shutters_if_opened st1).
  { apply (branch_taken c st temp lum true Hc Hs Hcomm).
    intros day_moment st0 Hday _.
    rewrite (get_day_time_outside c st _ lum Hc Hnight) in Hday.
    injection Hday as <-. rewrite must_close_night.
    split; [reflexivity | apply up_to_refl]. }
  split; [exact Hbranch|].
  destruct Hbranch as (st1 & _ & ->). apply close_returns_closed.
Qed.

(** X12: with the adaptation to the environment on, a temperature below
    the low threshold together with a luminosity below the low-light
    threshold closes the shutters at any hour. *)
Theorem cold_and_dark_closes (c : settings) (st : state) (temp lum : pyfloat) :
  _CentralUnit__config (self st) = Some (config_of c) ->
  is_Some (_CentralUnit__shutters_state (self st)) ->
  is_Some (_Communicator (self st)) ->
  adapt_with_env_in_plain_day c = true ->
  float_lt temp (of_int (low_temp_threshold c)) = true ->
  float_lt lum (of_int (low_light_threshold c)) = true ->
  let run := _automatic_shutters builtin_str_float temp lum st in
  (exists st1, up_to_log_and_clock st st1
               /\ run = _close_shutters_if_opened st1)
  /\ (fst run = inr tt ->
      _CentralUnit__shutters_state (self (snd run)) = Some SHUTTERS_CLOSED).
Proof.
  intros Hc Hs Hcomm Ha Hcold Hdark run.
  assert (Hbranch : exists st1,
             up_to_log_and_clock st st1
             /\ run = _close_shutters_if_opened st1).
  { apply (branch_taken c st temp lum true Hc Hs Hcomm).
    intros day_moment st0 _ [Hst0 _].
    rewrite (must_close_cold_dark c st0 _ _ temp lum
               ltac:(now rewrite (up_to_config _ _ Hst0)) Ha Hcold Hdark).
    split; [reflexivity | apply up_to_refl]. }
  split; [exact Hbranch|].
  destruct Hbranch as (st1 & _ & ->). apply close_returns_closed.
Qed.

(** X13: in plain day, when neither the cold-and-dark nor the hot-midday
    condition holds and the last closing is an hour old or more,
    [_automatic_shutters] takes the opening branch, and when it returns the
    shutters are recorded as opened. *)
Theorem otherwise_opens (c : settings) (st : state) (temp lum : pyfloat)
    (last_closed : Q) :
  _CentralUnit__config (self st) = Some (config_of c) ->
  is_Some (_CentralUnit__shutters_state (self st)) ->
  is_Some (_Communicator (self st)) ->
  fst (_get_day_time (tm_hour st) lum st) = inr (Some PLAIN_DAY) ->
  adapt_with_env_in_plain_day c
  && ((float_lt temp (of_int (low_temp_threshold c))
       && float_lt lum (of_int (low_light_threshold c)))
      || (float_lt (of_int (high_temp_threshold c)) temp
          && (Z.abs (tm_hour st - (13 + daylight st)) <=? 4))) = false ->
  _last_closed (self st) = Some last_closed ->
  (last_closed <= time_time st (time_calls st) - inject_Z 3600)%Q ->
  let run := _automatic_shutters builtin_str_float temp lum st in
  (exists st1, up_to_log_and_clock st st1
               /\ run = _open_shutters_if_closed st1)
  /\ (fst run = inr tt ->
      _CentralUnit__shutters_state (self (snd run)) = Some SHUTTERS_OPENED).
Proof.
  intros Hc Hs Hcomm Hplain Hno Hl Hold run.
  assert (Hbranch : exists st1,
             up_to_log_and_clock st st1
             /\ run = _open_shutters_if_closed st1).
  { apply (branch_taken c st temp lum false Hc Hs Hcomm).
    intros day_moment st0 Hday [Hst0 Hcalls].
    rewrite Hday in Hplain. cbn in Hplain. injection Hplain as ->.
    apply (must_close_no_reason c st0 _ temp lum last_closed).
    - now rewrite (up_to_config _ _ Hst0).
    - now rewrite (up_to_last_closed _ _ Hst0).
    - destruct Hst0 as (_ & _ & -> & _). now rewrite Hcalls.
    - destruct Hst0 as (_ & _ & _ & _ & ->). exact Hno. }
  split; [exact Hbranch|].
  destruct Hbranch as (st1 & _ & ->). apply open_returns_opened.
Qed.
End DecisionExtra.

Lemma night_closes_witness :
  let st := started default_settings [] 22 in
  let run := _automatic_shutters Literal.str_float (FNum 20) (FNum 500) st in
  (exists st1, up_to_log_and_clock st st1
               /\ run = _close_shutters_if_opened st1)
  /\ (fst run = inr tt ->
      _CentralUnit__shutters_state (self (snd run)) = Some SHUTTERS_CLOSED).
Proof.
  intros st.
  apply (night_closes Literal.str_float default_settings st (FNum 20)
           (FNum 500));
    first [reflexivity | eexists; reflexivity | cbn; lia].
Defined.

Lemma cold_and_dark_closes_witness :
  let st := started default_settings [] 12 in
  let run := _automatic_shutters Literal.str_float (FNum (-5)) (FNum 50) st in
  (exists st1, up_to_log_and_clock st st1
               /\ run = _close_shutters_if_opened st1)
  /\ (fst run = inr tt ->
      _CentralUnit__shutters_state (self (snd run)) = Some SHUTTERS_CLOSED).
Proof.
  intros st.
  apply (cold_and_dark_closes Literal.str_float default_settings st
           (FNum (-5)) (FNum 50));
    first [reflexivity | eexists; reflexivity].
Defined.

Lemma otherwise_opens_witness :
  let st := on_self (set_last_closed (Some 1699990000%Q))
              (on_self (set__shutters_state (Some SHUTTERS_CLOSED))
                 (started default_settings [] 12)) in
  let run := _automatic_shutters Literal.str_float (FNum 20) (FNum 500) st in
  (exists st1, up_to_log_and_clock st st1
               /\ run = _open_shutters_if_closed st1)
  /\ (fst run = inr tt ->
      _CentralUnit__shutters_state (self (snd run)) = Some SHUTTERS_OPENED).
Proof.
  intros st.
  apply (otherwise_opens Literal.str_float default_settings st (FNum 20)
           (FNum 500) 1699990000%Q);
    first [reflexivity | eexists; reflexivity | cbv; discriminate].
Defined.

(** X14: an order for the state the shutters are recorded in is not sent:
    closing closed shutters, like opening opened ones, returns with the
    link and the recorded state untouched. *)
Theorem actuation_already_done (st : state) comm :
  _Communicator (self st) = Some comm ->
  (_CentralUnit__shutters_state (self st) = Some SHUTTERS_CLOSED ->
   fst (_close_shutters_if_opened st) = inr tt
   /\ arduino (self (snd (_close_shutters_if_opened st))) = arduino (self st)
   /\ shutter_fields (snd (_close_shutters_if_opened st)) = shutter_fields st)
  /\ (_CentralUnit__shutters_state (self st) = Some SHUTTERS_OPENED ->
      fst (_open_shutters_if_closed st) = inr tt
      /\ arduino (self (snd (_open_shutters_if_closed st))) = arduino (self st)
      /\ shutter_fields (snd (_open_shutters_if_closed st)) = shutter_fields st).
Proof.
  intros Hcomm. methods_unfold.
  destruct st as [o tt tc h d], o as [lp lcl s ap cf lck lc a cm].
  cbn in Hcomm. subst cm.
  split; intros Hs;
    cbn [self _CentralUnit__shutters_state] in Hs; inversion Hs; subst;
    obj_run ltac:(rewrite ?Z.eqb_refl); repeat split.
Qed.

Lemma reply_nothing_expected (line : string) :
  exists e, reply 0 line = inl e
            /\ (e = ValueError ("Invalid value received from arduino: " ++ line)
                \/ exists m, e = ConnectionError m).
Proof.
  unfold reply.
  destruct ((2 <=? Z.of_nat (length (split ";" line)))
            && String.eqb (nth 0 (split ";" line) EmptyString) "ERROR").
  - eexists. split; [reflexivity|]. right. eexists. reflexivity.
  - pose proof (split_not_nil ";" line) as Hne.
    destruct (split ";" line) as [|f fs]; [contradiction|].
    replace (Z.of_nat (length (f :: fs)) =? 0) with false
      by (symmetry; apply Z.eqb_neq; cbn [length]; lia).
    eexists. split; [reflexivity|]. now left.
Qed.

Lemma actuation_already_done_witness :
  let st := started default_settings [] 12 in
  fst (_open_shutters_if_closed st) = inr tt
  /\ arduino (self (snd (_open_shutters_if_closed st))) = arduino (self st)
  /\ shutter_fields (snd (_open_shutters_if_closed st)) = shutter_fields st.
Proof.
  intros st.
  destruct (actuation_already_done st communicator0 eq_refl) as [_ Hopened].
  exact (Hopened eq_refl).
Defined.

(** X15: when the Arduino answers the order with a line, whatever it
    says, the method raises after having sent the order, and the recorded
    state of the shutters and the time of the last closing stay as they
    were. *)
Theorem answered_actuation_raises (st : state) s comm line t rest tx lg :
  _CentralUnit__shutters_state (self st) = Some s ->
  _Communicator (self st) = Some comm ->
  arduino (self st) = Some (link t ((line ++ CRLF) :: rest) tx lg) ->
  is_ascii line = true ->
  (s <> SHUTTERS_CLOSED ->
   (exists e, fst (_close_shutters_if_opened st) = inl e)
   /\ shutter_fields (snd (_close_shutters_if_opened st)) = shutter_fields st
   /\ arduino (self (snd (_close_shutters_if_opened st)))
      = Some (link t rest (tx ++ ["16"])%list lg))
  /\ (s <> SHUTTERS_OPENED ->
      (exists e, fst (_open_shutters_if_closed st) = inl e)
      /\ shutter_fields (snd (_open_shutters_if_closed st)) = shutter_fields st
      /\ arduino (self (snd (_open_shutters_if_closed st)))
         = Some (link t rest (tx ++ ["8"])%list lg)).
Proof.
  intros Hs Hc Ha Hline.
  destruct (reply_nothing_expected line) as (e & He & _).
  destruct st as [o tt tc h d], o as [lp lcl s' ap cf lck lc a cm].
  cbn in Hs, Hc, Ha. subst s' cm a.
  split; intros Hne; apply Z.eqb_neq in Hne; methods_unfold;
    obj_run ltac:(rewrite ?Hne, ?ask_line, ?He by (reflexivity || exact Hline));
    repeat split; eexists; reflexivity.
Qed.

Lemma answered_actuation_raises_witness :
  let st := started default_settings [("OK" ++ CRLF)%string] 12 in
  (exists e, fst (_close_shutters_if_opened st) = inl e)
  /\ shutter_fields (snd (_close_shutters_if_opened st)) = shutter_fields st
  /\ arduino (self (snd (_close_shutters_if_opened st)))
     = Some (link 1 [] ["16"] []).
Proof.
  intros st.
  destruct (answered_actuation_raises st SHUTTERS_OPENED communicator0 "OK"
              1 [] [] [] eq_refl eq_refl eq_refl eq_refl) as [Hclose _].
  apply Hclose. discriminate.
Defined.

End ShutterFacts.

(** ** The commands of the operator *)

Module CommandFacts.
Import CentralUnit ArduinoSerialFacts CentralUnitFacts.

Lemma updated_cons name val (rest : namespace) (d : gmap string value) :
  updated ((name, val) :: rest) d
  = updated rest (if bool_decide (val = VNone) then d else <[name := val]> d).
Proof. reflexivity. Qed.

Lemma log_fn_frame (st : state) comm msg source log_type :
  _Communicator (self st) = Some comm ->
  (String.length msg =? 0)%nat = false ->
  (String.length source =? 0)%nat = false ->
  (String.length log_type =? 0)%nat = false ->
  _log_fn msg source log_type st
  = (inr tt,
     on_self (set_Communicator
                (Some (snd (CentralUnitCommunicator.log msg source log_type comm))))
             st).
Proof.
  intros Hcomm Hm Hs Ht.
  unfold _log_fn, on_attr, getattr. exec_unfold. rewrite Hcomm.
  pose proof (log_ok msg source log_type comm Hm Hs Ht) as Hlog.
  destruct (CentralUnitCommunicator.log msg source log_type comm) as [r comm'].
  cbn in Hlog. subst r. reflexivity.
Qed.

Lemma set_settings_run (settings : namespace) (st : state) d :
  _CentralUnit__config (self st) = Some d ->
  is_Some (_Communicator (self st)) ->
  exists st1,
    _cmd_set_settings settings st = (inr tt, st1)
    /\ _CentralUnit__config (self st1) = Some (updated settings d)
    /\ set__config None (set_Communicator None (self st1))
       = set__config None (set_Communicator None (self st))
    /\ is_Some (_Communicator (self st1))
    /\ time_calls st1 = time_calls st /\ time_time st1 = time_time st
    /\ tm_hour st1 = tm_hour st /\ daylight st1 = daylight st.
Proof.
  unfold _cmd_set_settings.
  revert st d. induction settings as [|[name val] rest IH]; intros st d Hd Hc.
  - exists st. cbn. repeat split; auto.
  - cbn [for_each]. rewrite updated_cons.
    destruct (bool_decide (val = VNone)) eqn:Hval; cbn [negb].
    + rewrite bind_ret. apply IH; assumption.
    + destruct Hc as [comm Hc].
      set (st' := on_self (set__config (Some (<[name := val]> d))) st).
      assert (Hc' : _Communicator (self st') = Some comm)
        by (destruct st as [o ? ? ? ?], o; exact Hc).
      pose proof (log_fn_frame st' comm
                    (name ++ " now has " ++ str_value val ++ " is now")
                    "core/cmd" "status" Hc'
                    (non_empty_app_r name _
                       (non_empty_app_l " now has " _ eq_refl))
                    eq_refl eq_refl) as Hlog.
      match type of Hlog with _ = (_, ?s2) => set (st2 := s2) in * end.
      assert (Hstep :
        (d0 ← getattr _CentralUnit__config "_CentralUnit__config";
         setattr set__config (<[name := val]> d0);;
         _log_fn (name ++ " now has " ++ str_value val ++ " is now")
           "core/cmd" "status") st = (inr tt, st2)).
      { rewrite (bind_inr _ _ _ _ _ (getattr_some _ _ _ _ Hd)).
        unfold setattr. rewrite bind_modify. exact Hlog. }
      destruct (IH st2 (<[name := val]> d)) as (st1 & Hrun & Hcfg & Hrest).
      * destruct st as [o ? ? ? ?], o. reflexivity.
      * destruct st as [o ? ? ? ?], o. eexists. reflexivity.
      * exists st1. split; [|split; [exact Hcfg|]].
        -- rewrite (bind_inr _ _ _ _ _ Hstep). exact Hrun.
        -- destruct Hrest as (Hobj & Hcm & Hcalls & Htime & Hhour & Hdst).
           destruct st as [o ? ? ? ?], o. cbn in *.
           repeat split; assumption.
Qed.

Lemma updated_untouched (settings : namespace) (d : gmap string value) name :
  (forall val, (name, val) ∈ settings -> val = VNone) ->
  updated settings d !! name = d !! name.
Proof.
  revert d. induction settings as [|[n v] rest IH]; intros d Hnone;
    [reflexivity|].
  rewrite updated_cons.
  destruct (bool_decide (v = VNone)) eqn:Hv.
  - apply IH. intros val Hin. apply Hnone. now right.
  - rewrite IH by (intros val Hin; apply Hnone; now right).
    apply lookup_insert_ne. intros ->.
    apply bool_decide_eq_false in Hv. apply Hv, Hnone. now left.
Qed.

Lemma updated_given (settings : namespace) (d : gmap string value) name val :
  NoDup (fst <$> settings) ->
  (name, val) ∈ settings -> val <> VNone ->
  updated settings d !! name = Some val.
Proof.
  revert d. induction settings as [|[n v] rest IH]; intros d Hnd Hin Hval.
  - inversion Hin.
  - cbn [fmap list_fmap fst] in Hnd. apply NoDup_cons in Hnd as [Hfresh Hnd].
    rewrite updated_cons.
    apply elem_of_cons in Hin as [[= <- <-]|Hin].
    + rewrite bool_decide_eq_false_2 by exact Hval.
      rewrite updated_untouched; [apply lookup_insert_eq|].
      intros val' Hin'. exfalso. apply Hfresh.
      apply list_elem_of_fmap. now exists (name, val').
    + now apply IH.
Qed.

(** X16: [_cmd_set_settings] changes the settings that are given and no
    other: a setting whose value is [None] keeps its value, one that is
    given takes the new value, and the shutters, the link, the loop flag and
    the time of the last check are left alone. *)
Theorem set_settings_partial_update (settings : namespace) (st : state) d :
  _CentralUnit__config (self st) = Some d ->
  is_Some (_Communicator (self st)) ->
  let out := _cmd_set_settings settings st in
  fst out = inr tt
  /\ (exists d', _CentralUnit__config (self (snd out)) = Some d'
       /\ (forall name,
              (forall val, (name, val) ∈ settings -> val = VNone) ->
              d' !! name = d !! name)
       /\ (forall name val,
              NoDup (fst <$> settings) ->
              (name, val) ∈ settings -> val <> VNone ->
              d' !! name = Some val))
  /\ shutter_fields (snd out) = shutter_fields st
  /\ arduino (self (snd out)) = arduino (self st)
  /\ _CentralUnit__loop (self (snd out)) = _CentralUnit__loop (self st)
  /\ _CentralUnit__last_check (self (snd out))
     = _CentralUnit__last_check (self st).
Proof.
  intros Hd Hc out.
  destruct (set_settings_run settings st d Hd Hc)
    as (st1 & Hrun & Hcfg & Hobj & _).
  subst out. rewrite Hrun. cbn [fst snd].
  split; [reflexivity|]. split.
  - exists (updated settings d). split; [exact Hcfg|]. split.
    + intros name. apply updated_untouched.
    + intros name val. apply updated_given.
  - unfold shutter_fields.
    pose proof (f_equal _CentralUnit__shutters_state Hobj) as H1.
    pose proof (f_equal _last_closed Hobj) as H2.
    pose proof (f_equal arduino Hobj) as H3.
    pose proof (f_equal _CentralUnit__loop Hobj) as H4.
    pose proof (f_equal _CentralUnit__last_check Hobj) as H5.
    cbn in H1, H2, H3, H4, H5. now rewrite H1, H2, H3, H4, H5.
Qed.

Lemma set_settings_partial_update_witness :
  let st := started default_settings [] 12 in
  let out := _cmd_set_settings
               [("sunrise_hour", VInt 8); ("sunset_hour", VNone)] st in
  fst out = inr tt
  /\ shown_settings (snd out)
     = [("user_mode", Some (VInt USER_MODE_AUTO));
        ("time_check", Some (VInt 600));
        ("sunrise_hour", Some (VInt 8));
        ("sunset_hour", Some (VInt 19));
        ("low_light_threshold", Some (VInt 100));
        ("low_temp_threshold", Some (VInt 0));
        ("high_temp_threshold", Some (VInt 30));
        ("adapt_with_env_in_plain_day", Some (VBool true))]
  /\ shutter_fields (snd out) = shutter_fields st.
Proof.
  intros st out.
  destruct (set_settings_partial_update
              [("sunrise_hour", VInt 8); ("sunset_hour", VNone)] st
              (config_of default_settings) eq_refl
              (ex_intro _ communicator0 eq_refl))
    as (Hreturns & _ & Hshutters & _).
  split; [exact Hreturns|]. split; [reflexivity | exact Hshutters].
Defined.

(** X17: a setting that [_cmd_set_settings] has just entered is the one
    that [_cmd_log_setting] reports, and the report is made; for a name that
    is not a key of the settings [_cmd_log_setting] raises [KeyError] and
    logs nothing. *)
Theorem set_then_log_setting (st : state) d name val :
  _CentralUnit__config (self st) = Some d ->
  is_Some (_Communicator (self st)) ->
  val <> VNone ->
  let st1 := snd (_cmd_set_settings [(name, val)] st) in
  fst (_cmd_set_settings [(name, val)] st) = inr tt
  /\ _cmd_log_setting name st1
     = _log_fn (name ++ " is " ++ str_value val) "core/cmd" "status" st1
  /\ fst (_cmd_log_setting name st1) = inr tt
  /\ (forall unknown, d !! unknown = None ->
      _cmd_log_setting unknown st = (inl (KeyError unknown), st)).
Proof.
  intros Hd Hc Hval st1.
  destruct (set_settings_run [(name, val)] st d Hd Hc)
    as (st' & Hrun & Hcfg & _ & [comm1 Hc1] & _).
  subst st1. rewrite Hrun. cbn [fst snd].
  rewrite updated_cons, bool_decide_eq_false_2 in Hcfg by exact Hval.
  cbn [updated foldl] in Hcfg.
  assert (Hlook : config name st' = (inr val, st'))
    by (apply (config_read st' _ name val Hcfg), lookup_insert_eq).
  assert (Hcall : _cmd_log_setting name st'
                  = _log_fn (name ++ " is " ++ str_value val)
                      "core/cmd" "status" st')
    by (unfold _cmd_log_setting; now rewrite (bind_inr _ _ _ _ _ Hlook)).
  split; [reflexivity|]. split; [exact Hcall|]. split.
  - rewrite Hcall.
    rewrite (log_fn_frame st' comm1 _ "core/cmd" "status" Hc1
               (non_empty_app_r name _ (non_empty_app_l " is " _ eq_refl))
               eq_refl eq_refl).
    reflexivity.
  - intros unknown Hnone. unfold _cmd_log_setting, config, getattr, subscript.
    exec_unfold. now rewrite Hd, Hnone.
Qed.

Lemma set_then_log_setting_witness :
  let st := started default_settings [] 12 in
  let st1 := snd (_cmd_set_settings [("sunrise_hour", VInt 8)] st) in
  fst (_cmd_set_settings [("sunrise_hour", VInt 8)] st) = inr tt
  /\ _cmd_log_setting "sunrise_hour" st1
     = _log_fn "sunrise_hour is 8" "core/cmd" "status" st1
  /\ fst (_cmd_log_setting "sunrise_hour" st1) = inr tt
  /\ _cmd_log_setting "sunrise" st = (inl (KeyError "sunrise"), st).
Proof.
  intros st st1.
  destruct (set_then_log_setting st (config_of default_settings)
              "sunrise_hour" (VInt 8) eq_refl
              (ex_intro _ communicator0 eq_refl) ltac:(discriminate))
    as (Hset & Hlog & Hlogged & Hunknown).
  split; [exact Hset|]. split; [exact Hlog|]. split; [exact Hlogged|].
  apply Hunknown. reflexivity.
Defined.

(** X18: a command line that the parser refuses, by [ArgumentError],
    [TypeError] or [ValueError], does not stop the unit: [parse_command]
    returns, one line of type [error] goes to the communicator and nothing
    else of the state changes. *)
Theorem parse_errors_are_not_fatal (st : state) (cmd : string) p comm e :
  _CentralUnit__argparser (self st) = Some p ->
  _Communicator (self st) = Some comm ->
  parse_args p (split " " cmd) = inl e ->
  (match e with
   | ArgumentError _ | TypeError _ | ValueError _ => True
   | _ => False
   end) ->
  let out := parse_command cmd st in
  fst out = inr tt
  /\ after_logging st (snd out)
  /\ exists line,
       _Communicator (self (snd out))
       = Some (snd (CentralUnitCommunicator.log line "core/cmd" "error" comm)).
Proof.
  intros Hp Hcomm Hparse He out. subst out. unfold parse_command.
  rewrite (bind_inr _ _ _ _ _ (getattr_some _ _ _ _ Hp)). rewrite Hparse.
  destruct e; try contradiction;
    match goal with
    | |- context [ _log_fn ?m ?s ?t st ] =>
        rewrite (log_fn_frame st comm m s t Hcomm
                   (non_empty_app_l "command " _ eq_refl) eq_refl eq_refl)
    end;
    (split; [reflexivity|]);
    (split; [|eexists; destruct st as [o ? ? ? ?], o; reflexivity]);
    destruct st as [o ? ? ? ?], o; cbn in Hcomm; subst;
    unfold after_logging, up_to_log_and_clock; cbn; eauto 10.
Qed.

Lemma parse_errors_are_not_fatal_witness :
  let st := declared default_settings in
  let out := parse_command "set_settings --sunrise_hour x" st in
  fst out = inr tt /\ after_logging st (snd out).
Proof.
  intros st out.
  edestruct (parse_errors_are_not_fatal st "set_settings --sunrise_hour x")
    as (Hreturns & Hlogged & _);
    [reflexivity | reflexivity | reflexivity | exact I | ].
  split; [exact Hreturns | exact Hlogged].
Defined.

End CommandFacts.

(** ** The periodic update and the exit *)

Module CycleFacts.
Import CentralUnit ArduinoSerialFacts CentralUnitFacts.

Lemma Qlt_bool_iff (x y : Q) : Qlt_bool x y = true <-> (x < y)%Q.
Proof.
  unfold Qlt_bool. rewrite negb_true_iff. split.
  - intros H. apply Qnot_le_lt. intros Hle. apply Qle_bool_iff in Hle.
    congruence.
  - intros H. destruct (Qle_bool y x) eqn:E; [|reflexivity].
    apply Qle_bool_iff in E. exfalso. exact (Qlt_not_le _ _ H E).
Qed.

Section Cycle.
Context (builtin_float : string -> option pyfloat)
        (builtin_str_float : pyfloat -> string).

Lemma update_shutters_auto (c : settings) (st : state) (last_check : Q) :
  _CentralUnit__config (self st) = Some (config_of c) ->
  user_mode c = USER_MODE_AUTO ->
  _CentralUnit__last_check (self st) = Some last_check ->
  _update_shutters builtin_float builtin_str_float st
  = if Qlt_bool (inject_Z (time_check c))
         (time_time st (time_calls st) - last_check)
    then automatic_cycle builtin_float builtin_str_float (tick st)
    else (inr tt, tick st).
Proof.
  intros Hc Hm Hl.
  unfold _update_shutters.
  rewrite (bind_inr _ _ st (VInt (user_mode c)) st)
    by (apply (config_read st (config_of c)); [exact Hc|reflexivity]).
  rewrite Hm. cbn [eq_int]. change (USER_MODE_AUTO =? USER_MODE_OPEN) with false.
  cbn beta iota.
  rewrite (bind_inr _ _ st (VInt (user_mode c)) st)
    by (apply (config_read st (config_of c)); [exact Hc|reflexivity]).
  rewrite Hm. cbn [eq_int]. change (USER_MODE_AUTO =? USER_MODE_CLOSE) with false.
  cbn beta iota.
  assert (Hdue : and_then (m ← config "user_mode"; ret (eq_int m USER_MODE_AUTO))
              (now ← time;
               last_check ← getattr _CentralUnit__last_check
                              "_CentralUnit__last_check";
               time_check ← config "time_check";
               time_check ← int_of time_check;
               ret (Qlt_bool (inject_Z time_check) (now - last_check))) st
       = (inr (Qlt_bool (inject_Z (time_check c))
                 (time_time st (time_calls st) - last_check)), tick st)).
  { unfold and_then, config, getattr, subscript, int_of, time.
    exec_unfold. rewrite Hc. cbn beta iota. config_lookups. rewrite Hm.
    cbn. rewrite Hl. cbn. rewrite Hc. cbn beta iota. config_lookups. reflexivity. }
  rewrite (bind_inr _ _ st _ _ Hdue).
  destruct (Qlt_bool _ _); reflexivity.
Qed.

Lemma check_reading (st : state) line f0 f1 temp t rest tx lg :
  arduino (self st) = Some (link t ((line ++ CRLF) :: rest) tx lg) ->
  is_ascii line = true ->
  split ";" line = [f0; f1] ->
  f0 <> "ERROR" ->
  builtin_float f0 = Some temp ->
  float_le (of_int (-40)) temp && float_le temp (of_int 60) = true ->
  _check_luminosity_and_temp builtin_float st
  = (inl (ValueError "Arduino returned an invalid temperature."),
     on_self (set_arduino (Some (link t rest (tx ++ ["32"])%list lg))) st).
Proof.
  intros Ha Hline Hsplit Herr Htemp Hin.
  apply String.eqb_neq in Herr.
  unfold _check_luminosity_and_temp, arduino_ask, on_attr, getattr, item, float_.
  exec_unfold. rewrite Ha.
  rewrite ask_line by (reflexivity || exact Hline).
  unfold reply. rewrite Hsplit. cbn [length nth Z.of_nat]. rewrite Herr.
  change ((2 <=? Z.of_nat 2) && false) with false.
  change (Z.of_nat 2 =? 2) with true.
  cbn beta iota.
  change ([f0; f1] !! 0%nat) with (Some f0).
  cbn beta iota. rewrite Htemp. cbn beta iota.
  rewrite Hin. reflexivity.
Qed.

(** X19: in the automatic mode nothing is done until strictly more than
    [time_check] seconds have passed since the last check, the boundary
    included: the clock is read once and the object is left as it was. *)
Theorem update_waits_for_the_period (c : settings) (st : state)
    (last_check : Q) :
  _CentralUnit__config (self st) = Some (config_of c) ->
  user_mode c = USER_MODE_AUTO ->
  _CentralUnit__last_check (self st) = Some last_check ->
  (time_time st (time_calls st) - last_check <= inject_Z (time_check c))%Q ->
  _update_shutters builtin_float builtin_str_float st
  = (inr tt,
     mkState (self st) (time_time st) (S (time_calls st)) (tm_hour st)
             (daylight st)).
Proof.
  intros Hc Hm Hl Hle.
  rewrite (update_shutters_auto c st last_check Hc Hm Hl).
  destruct (Qlt_bool _ _) eqn:E; [|reflexivity].
  apply Qlt_bool_iff in E. exfalso. exact (Qlt_not_le _ _ E Hle).
Qed.


(** X21: a due automatic cycle that reads a temperature within [-40, 60]
    stops with [ValueError] after the query: no order is sent to the
    shutters, and their recorded state and the time of the last check
    stay. *)
Theorem sane_reading_stops_the_cycle (c : settings) (st : state)
    (last_check : Q) comm line f0 f1 temp t rest tx lg :
  _CentralUnit__config (self st) = Some (config_of c) ->
  user_mode c = USER_MODE_AUTO ->
  _CentralUnit__last_check (self st) = Some last_check ->
  (inject_Z (time_check c) < time_time st (time_calls st) - last_check)%Q ->
  _Communicator (self st) = Some comm ->
  arduino (self st) = Some (link t ((line ++ CRLF) :: rest) tx lg) ->
  is_ascii line = true ->
  split ";" line = [f0; f1] ->
  f0 <> "ERROR" ->
  builtin_float f0 = Some temp ->
  float_le (of_int (-40)) temp && float_le temp (of_int 60) = true ->
  let out := _update_shutters builtin_float builtin_str_float st in
  fst out = inl (ValueError "Arduino returned an invalid temperature.")
  /\ arduino (self (snd out)) = Some (link t rest (tx ++ ["32"])%list lg)
  /\ shutter_fields (snd out) = shutter_fields st
  /\ _CentralUnit__last_check (self (snd out)) = Some last_check.
Proof.
  intros Hc Hm Hl Hdue Hcomm Ha Hline Hsplit Herr Htemp Hin out. subst out.
  rewrite (update_shutters_auto c st last_check Hc Hm Hl).
  apply Qlt_bool_iff in Hdue. rewrite Hdue.
  unfold automatic_cycle.
  destruct (log_fn_ok (tick st) comm "Automatically updating shutters"
              "core/shutters" "info" Hcomm eq_refl eq_refl eq_refl)
    as (st1 & [Hup Hcalls] & Hlog).
  rewrite (bind_inr _ _ _ _ _ Hlog).
  assert (Ha1 : arduino (self st1)
                = Some (link t ((line ++ CRLF) :: rest) tx lg)).
  { rewrite (up_to_arduino _ _ Hup). exact Ha. }
  rewrite (bind_inl _ _ _ _ _
             (check_reading st1 line f0 f1 temp t rest tx lg
                Ha1 Hline Hsplit Herr Htemp Hin)).
  cbn [fst snd on_self self arduino set_arduino].
  split; [reflexivity|]. split; [reflexivity|].
  unfold shutter_fields, on_self.
  cbn [self set_arduino _CentralUnit__shutters_state
    _last_closed _CentralUnit__last_check].
  rewrite (up_to_shutters _ _ Hup), (up_to_last_closed _ _ Hup).
  split; [reflexivity|].
  destruct Hup as [Hset _]. apply (f_equal _CentralUnit__last_check) in Hset.
  cbn in Hset. rewrite Hset. exact Hl.
Qed.

(** X22: the mode decides: [USER_MODE_OPEN] and [USER_MODE_CLOSE] act at once,
    without a look at the clock or at the time of the last check, and a mode
    that is none of the three does nothing at all. *)
Theorem update_shutters_modes (c : settings) (st : state) :
  _CentralUnit__config (self st) = Some (config_of c) ->
  (user_mode c = USER_MODE_OPEN ->
   _update_shutters builtin_float builtin_str_float st
   = _open_shutters_if_closed st)
  /\ (user_mode c = USER_MODE_CLOSE ->
      _update_shutters builtin_float builtin_str_float st
      = _close_shutters_if_opened st)
  /\ (user_mode c <> USER_MODE_OPEN -> user_mode c <> USER_MODE_CLOSE ->
      user_mode c <> USER_MODE_AUTO ->
      _update_shutters builtin_float builtin_str_float st = (inr tt, st)).
Proof.
  intros Hc.
  assert (Hmode : config "user_mode" st = (inr (VInt (user_mode c)), st))
    by (apply (config_read st (config_of c)); [exact Hc|reflexivity]).
  split; [|split].
  - intros Hm. unfold _update_shutters.
    rewrite (bind_inr _ _ _ _ _ Hmode). cbn [eq_int]. rewrite Hm. reflexivity.
  - intros Hm. unfold _update_shutters.
    rewrite (bind_inr _ _ _ _ _ Hmode). cbn [eq_int]. rewrite Hm.
    change (USER_MODE_CLOSE =? USER_MODE_OPEN) with false. cbn beta iota.
    rewrite (bind_inr _ _ _ _ _ Hmode). cbn [eq_int]. rewrite Hm. reflexivity.
  - intros Ho Hcl Ha.
    apply Z.eqb_neq in Ho. apply Z.eqb_neq in Hcl. apply Z.eqb_neq in Ha.
    unfold _update_shutters.
    rewrite (bind_inr _ _ _ _ _ Hmode). cbn [eq_int]. rewrite Ho.
    cbn beta iota.
    rewrite (bind_inr _ _ _ _ _ Hmode). cbn [eq_int]. rewrite Hcl.
    cbn beta iota. unfold and_then.
    unfold config, getattr, subscript. exec_unfold. rewrite Hc. cbn beta iota.
    config_lookups. cbn [eq_int]. rewrite Ha. reflexivity.
Qed.

(** X23: [_proper_exit] always ends with [SystemExit] of the given code once a
    communicator is there, whether or not the link to the Arduino was ever
    made; both are gone afterwards, and nothing else of the object changes. *)
Theorem proper_exit_deletes (st : state) comm (code : Z) (error : option exn) :
  _Communicator (self st) = Some comm ->
  let out := _proper_exit code error st in
  fst out = inl (SystemExit code)
  /\ _Communicator (self (snd out)) = None
  /\ arduino (self (snd out)) = None
  /\ set_arduino None (set_Communicator None (self (snd out)))
     = set_arduino None (set_Communicator None (self st))
  /\ time_calls (snd out) = time_calls st.
Proof.
  intros Hcomm out. subst out. unfold _proper_exit.
  assert (Hfirst : exists st0, after_logging st st0
            /\ (match error with
                | Some e => _log_fn (str_exn e ++ NEWLINE) "core/init" "error"
                | None => ret tt
                end) st = (inr tt, st0)).
  { destruct error as [e|].
    - destruct (log_fn_ok st comm (str_exn e ++ NEWLINE) "core/init" "error"
                  Hcomm (non_empty_app_r (str_exn e) NEWLINE eq_refl)
                  eq_refl eq_refl) as (st0 & H0 & Hlog).
      exists st0. split; assumption.
    - exists st. split; [|reflexivity]. split; [apply up_to_refl|reflexivity]. }
  destruct Hfirst as (st0 & [Hup0 Hcalls0] & Hfirst).
  rewrite (bind_inr _ _ _ _ _ Hfirst).
  destruct Hup0 as (Hset0 & Hsome0 & _).
  destruct (Hsome0 (ex_intro _ comm Hcomm)) as [comm0 Hcomm0].
  destruct (log_fn_ok st0 comm0 "shutting down" "core" "status" Hcomm0
              eq_refl eq_refl eq_refl)
    as (st1 & [(Hset1 & Hsome1 & _) Hcalls1] & Hlog1).
  rewrite (bind_inr _ _ _ _ _ Hlog1).
  destruct (Hsome1 (ex_intro _ comm0 Hcomm0)) as [comm1 Hcomm1].
  assert (Hself : set_Communicator None (self st1)
                  = set_Communicator None (self st)) by congruence.
  assert (Hcalls : time_calls st1 = time_calls st) by congruence.
  clear - Hself Hcalls Hcomm1.
  unfold try_except, delattr, getattr. exec_unfold.
  rewrite Hcomm1.
  destruct st1 as [o1 tt1 tc1 h1 d1], o1 as [lp lcl s ap cf lck lc [a|] cm];
    destruct st as [o tt0 tc h d], o as [lp' lcl' s' ap' cf' lck' lc' a' cm'];
    cbn in *; inversion Hself; subst; repeat split; reflexivity.
Qed.

End Cycle.

Lemma update_waits_for_the_period_witness :
  let st := on_self (set__last_check (Some 1699999400%Q))
              (started default_settings [] 12) in
  _update_shutters Literal.float Literal.str_float st = (inr tt, tick st).
Proof.
  intros st.
  apply (update_waits_for_the_period Literal.float Literal.str_float
           default_settings st 1699999400%Q);
    first [reflexivity | cbv; discriminate].
Defined.


Lemma sane_reading_stops_the_cycle_witness :
  let st := started default_settings [("21.5;430" ++ CRLF)%string] 12 in
  let out := _update_shutters Literal.float Literal.str_float st in
  fst out = inl (ValueError "Arduino returned an invalid temperature.")
  /\ arduino (self (snd out)) = Some (link 1 [] ["32"] [])
  /\ shutter_fields (snd out) = shutter_fields st
  /\ _CentralUnit__last_check (self (snd out)) = Some 0%Q.
Proof.
  intros st.
  apply (sane_reading_stops_the_cycle Literal.float Literal.str_float
           default_settings st 0%Q communicator0 "21.5;430" "21.5" "430"
           (FNum 21.5) 1 [] [] []);
    first [reflexivity | discriminate].
Defined.

Lemma update_shutters_modes_witness :
  let opening :=
    started (mkSettings USER_MODE_OPEN 600 7 19 100 0 30 true) [] 12 in
  let unknown := started (mkSettings 7 600 7 19 100 0 30 true) [] 12 in
  _update_shutters Literal.float Literal.str_float opening
  = _open_shutters_if_closed opening
  /\ _update_shutters Literal.float Literal.str_float unknown
     = (inr tt, unknown).
Proof.
  intros opening unknown. split.
  - destruct (update_shutters_modes Literal.float Literal.str_float
                (mkSettings USER_MODE_OPEN 600 7 19 100 0 30 true) opening
                eq_refl) as (Hopen & _ & _).
    exact (Hopen eq_refl).
  - destruct (update_shutters_modes Literal.float Literal.str_float
                (mkSettings 7 600 7 19 100 0 30 true) unknown eq_refl)
      as (_ & _ & Hnone).
    apply Hnone; discriminate.
Defined.

Lemma proper_exit_deletes_witness :
  let st := started default_settings [] 12 in
  let out := _proper_exit 1 (Some (ValueError "no")) st in
  fst out = inl (SystemExit 1)
  /\ _Communicator (self (snd out)) = None
  /\ arduino (self (snd out)) = None
  /\ set_arduino None (set_Communicator None (self (snd out)))
     = set_arduino None (set_Communicator None (self st))
  /\ time_calls (snd out) = time_calls st.
Proof.
  intros st.
  exact (proper_exit_deletes st communicator0 1 (Some (ValueError "no"))
           eq_refl).
Defined.

End CycleFacts.

(** ** The start of the link *)

Module StartUpFacts.
Import CentralUnit ArduinoSerialFacts CentralUnitFacts SerialProtocolFacts.

Lemma for_each_log_fn (msgs : list string) source log_type (st : state) :
  is_Some (_Communicator (self st)) ->
  Forall (fun msg => (String.length msg =? 0)%nat = false) msgs ->
  (String.length source =? 0)%nat = false ->
  (String.length log_type =? 0)%nat = false ->
  exists st1, after_logging st st1
    /\ for_each msgs (fun msg => _log_fn msg source log_type) st
       = (inr tt, st1).
Proof.
  intros Hcomm Hmsgs Hs Ht. revert st Hcomm.
  induction Hmsgs as [|msg msgs Hmsg _ IH]; intros st [comm Hcomm].
  - exists st. split; [|reflexivity]. split; [apply up_to_refl|reflexivity].
  - destruct (log_fn_ok st comm msg source log_type Hcomm Hmsg Hs Ht)
      as (st0 & [Hup0 Hcalls0] & Hlog).
    destruct (IH st0) as (st1 & [Hup1 Hcalls1] & Hrest).
    { destruct Hup0 as (_ & Hsome & _). apply Hsome. now exists comm. }
    exists st1. split.
    + split; [exact (up_to_trans _ _ _ Hup0 Hup1) | congruence].
    + cbn [for_each]. rewrite (bind_inr _ _ _ _ _ Hlog). exact Hrest.
Qed.

(** X24: with a communicator in place, [_init_arduino] succeeds exactly
    when the peer sends [CONNECT] and then [READY], and the attribute then
    holds the link after the handshake; when it fails the attribute is left
    as it was.  Either way only the log and the link change. *)
Theorem init_arduino_installs_the_link (st : state) comm
    (port : ArduinoSerial.Serial) :
  _Communicator (self st) = Some comm ->
  let out := _init_arduino port st in
  (fst out = inr tt
   <-> exists rest,
         ArduinoSerial.rx port
         = ("CONNECT" ++ CRLF) :: ("READY" ++ CRLF) :: rest)
  /\ (fst out = inr tt ->
      arduino (self (snd out))
      = Some (link (ArduinoSerial.timeout port)
                (drop 2 (ArduinoSerial.rx port))
                (ArduinoSerial.tx port ++ ["1"])%list
                ["Waiting for Arduino's CONNECT"; "CONNECT received";
                 "Sending signal"; "Sent a signal"; "Waiting for READY";
                 "READY received !"]))
  /\ (fst out <> inr tt -> arduino (self (snd out)) = arduino (self st))
  /\ set_arduino None (set_Communicator None (self (snd out)))
     = set_arduino None (set_Communicator None (self st))
  /\ time_calls (snd out) = time_calls st.
Proof.
  intros Hcomm out. subst out. destruct port as [t rx tx].
  cbn [ArduinoSerial.rx ArduinoSerial.tx ArduinoSerial.timeout].
  unfold _init_arduino.
  pose proof (handshake_logged (ArduinoSerial.mkSerial t rx tx)) as Hlogged.
  pose proof (handshake_success t rx tx) as Hinv.
  pose proof (handshake_done t) as Hdone.
  destruct (ArduinoSerial.__init__ true (ArduinoSerial.mkSerial t rx tx))
    as [r a] eqn:Hinit.
  cbn [fst snd] in Hlogged, Hinv.
  destruct (for_each_log_fn (ArduinoSerial.logged a) "arduino-serial"
              "status" st (ex_intro _ comm Hcomm) Hlogged eq_refl eq_refl)
    as (st1 & [Hup Hcalls] & Hlog).
  rewrite (bind_inr _ _ _ _ _ Hlog).
  assert (Hobj : set_arduino None (set_Communicator None (self st1))
                 = set_arduino None (set_Communicator None (self st))).
  { destruct Hup as (Hset & _). now rewrite <- Hset. }
  destruct r as [e|[]].
  - cbn [raise fst snd].
    split; [split; [discriminate|]|].
    + intros [rest ->]. rewrite Hdone in Hinit. discriminate.
    + split; [discriminate|]. split; [intros _; apply (up_to_arduino _ _ Hup)|].
      split; [exact Hobj | exact Hcalls].
  - destruct (Hinv eq_refl) as [rest ->].
    rewrite Hdone in Hinit. injection Hinit as <-.
    unfold setattr, modify. cbn [fst snd on_self self arduino set_arduino
      time_calls].
    split; [split; [intros _; now exists rest | reflexivity]|].
    split; [reflexivity|]. split; [intros H; now elim H|].
    split; [|exact Hcalls].
    destruct (self st1), (self st). cbn in Hobj |- *. inversion Hobj.
    reflexivity.
Qed.

Lemma init_arduino_installs_the_link_witness :
  let port := ArduinoSerial.mkSerial 1 [("HELLO" ++ CRLF)%string] [] in
  let unlinked := on_self (set_arduino None) (started default_settings [] 12) in
  fst (_init_arduino port unlinked) <> inr tt
  /\ arduino (self (snd (_init_arduino port unlinked))) = None.
Proof.
  intros port unlinked.
  destruct (init_arduino_installs_the_link unlinked communicator0 port
              eq_refl) as (Hiff & _ & Hfails & _).
  assert (Hno : fst (_init_arduino port unlinked) <> inr tt).
  { intros Hok. apply Hiff in Hok as [rest Hrx]. discriminate Hrx. }
  split; [exact Hno | exact (Hfails Hno)].
Defined.

End StartUpFacts.
